(** * mujoco_py.builder: a shallow embedding and its verified properties

    The module under study compiles small C callbacks at run time
    ([build_callback_fn]), removes the files such a build leaves behind
    ([build_fn_cleanup]), translates MuJoCo warnings into exceptions
    ([user_warning_raise_exception], [ignore_mujoco_warnings]) and builds
    the main extension module with a bounded number of attempts
    ([compile_with_multiple_attempts]).

    Python code is embedded as functions in a state-and-exception monad:
    a computation takes the state of the world, and gives back either a
    value or a raised exception, together with the new state of the world
    (the effects that happened before an exception stay). *)

From Stdlib Require Import Ascii String.
From stdpp Require Import base option list strings gmap pretty.

Open Scope string_scope.

(** ** Python exceptions *)

(** The exception classes that the module names or that its library calls
    raise.  [VerificationError] is cffi's build failure. *)
Inductive exn_class : Type :=
  | BaseException
  | KeyboardInterrupt
  | Exception
  | AssertionError
  | AttributeError
  | IndexError
  | ImportError
  | ModuleNotFoundError
  | OSError
  | FileNotFoundError
  | IsADirectoryError
  | PermissionError
  | TimeoutError
  | SubprocessError
  | CalledProcessError
  | TimeoutExpired
  | ValueError
  | UnicodeDecodeError
  | VerificationError
  | MujocoException.

Global Instance exn_class_eq_dec : EqDecision exn_class.
Proof. solve_decision. Defined.

(** The method resolution order of each class: the class itself followed by
    its bases.  [MujocoException] derives from [Exception] in the module;
    [TimeoutExpired] and [CalledProcessError] derive from
    [subprocess.SubprocessError], [TimeoutError] and [PermissionError] from
    [OSError]. *)
Definition mro (c : exn_class) : list exn_class :=
  match c with
  | BaseException => [BaseException]
  | KeyboardInterrupt => [KeyboardInterrupt; BaseException]
  | Exception => [Exception; BaseException]
  | AssertionError => [AssertionError; Exception; BaseException]
  | AttributeError => [AttributeError; Exception; BaseException]
  | IndexError => [IndexError; Exception; BaseException]
  | ImportError => [ImportError; Exception; BaseException]
  | ModuleNotFoundError =>
      [ModuleNotFoundError; ImportError; Exception; BaseException]
  | OSError => [OSError; Exception; BaseException]
  | FileNotFoundError => [FileNotFoundError; OSError; Exception; BaseException]
  | IsADirectoryError => [IsADirectoryError; OSError; Exception; BaseException]
  | PermissionError => [PermissionError; OSError; Exception; BaseException]
  | TimeoutError => [TimeoutError; OSError; Exception; BaseException]
  | SubprocessError => [SubprocessError; Exception; BaseException]
  | CalledProcessError =>
      [CalledProcessError; SubprocessError; Exception; BaseException]
  | TimeoutExpired =>
      [TimeoutExpired; SubprocessError; Exception; BaseException]
  | ValueError => [ValueError; Exception; BaseException]
  | UnicodeDecodeError =>
      [UnicodeDecodeError; ValueError; Exception; BaseException]
  | VerificationError => [VerificationError; Exception; BaseException]
  | MujocoException => [MujocoException; Exception; BaseException]
  end.

Definition issubclass (c d : exn_class) : bool := bool_decide (d ∈ mro c).

(** An exception instance: its class and its message. *)
Record exn : Type := mk_exn { exn_cls : exn_class; exn_msg : string }.

Global Instance exn_eq_dec : EqDecision exn.
Proof. solve_decision. Defined.

(** [isinstance(e, (c1, c2, ...))] *)
Definition isinstance (e : exn) (cs : list exn_class) : bool :=
  existsb (issubclass (exn_cls e)) cs.
Global Arguments isinstance : simpl never.

(** ** Computations that may raise *)

Inductive result (A : Type) : Type :=
  | Return (a : A)
  | Raise (e : exn).
Arguments Return {A} a.
Arguments Raise {A} e.

Definition py (W A : Type) : Type := W → result A * W.

Global Instance py_ret {W} : MRet (py W) := λ A a w, (Return a, w).

Global Instance py_bind {W} : MBind (py W) := λ A B f m w,
  match m w with
  | (Return a, w') => f a w'
  | (Raise e, w') => (Raise e, w')
  end.

Global Instance py_fmap {W} : FMap (py W) := λ A B f m w,
  match m w with
  | (Return a, w') => (Return (f a), w')
  | (Raise e, w') => (Raise e, w')
  end.

Definition raise {W A} (e : exn) : py W A := λ w, (Raise e, w).

(** [try: body  except (classes) as e: handler e] *)
Definition try_except {W A} (body : py W A) (classes : list exn_class)
    (handler : exn → py W A) : py W A := λ w,
  match body w with
  | (Return a, w') => (Return a, w')
  | (Raise e, w') =>
      if isinstance e classes then handler e w' else (Raise e, w')
  end.

(** [for x in xs: body x] *)
Fixpoint for_each {W A} (xs : list A) (body : A → py W unit) : py W unit :=
  match xs with
  | [] => mret ()
  | x :: xs' => body x ;; for_each xs' body
  end.

(** ** The world of a callback build *)

(** The working directory maps the name of each entry to what [os.remove]
    does with it: [None] when the removal succeeds, [Some e] when it raises
    [e] and leaves the entry where it is. *)
Abbreviation directory := (gmap string (option exn)).

(** What the outside can observe of a run, in order. *)
Inductive event : Type :=
  | EvCompile (name source : string)
      (include_dirs library_dirs libraries : list string)
  | EvRelink (mujoco_path library_path : string)
  | EvMove (src dst : string)
  | EvLoad (name library_path : string)
  | EvGlob (pattern : string)
  | EvRemove (f : string)
  | EvPrint (line : string).

Record world : Type := mk_world {
  glob_other : string → directory → list string;
                                  (* glob.glob on any other pattern than a
                                     plain name followed by a star *)
  environ : gmap string string;   (* os.environ *)
  cwd : directory;                (* the entries of the working directory *)
  rng : nat → nat;                (* the draws of the random generator *)
  rng_pos : nat;                  (* how many draws were made *)
  trace : list event              (* the events so far, oldest first *)
}.

Definition log (ev : event) : py world unit := λ w,
  (Return (),
   mk_world (glob_other w) (environ w) (cwd w) (rng w) (rng_pos w)
            (trace w ++ [ev])).

Definition set_cwd (fs : directory) (w : world) : world :=
  mk_world (glob_other w) (environ w) fs (rng w) (rng_pos w) (trace w).

(** ** build_fn_cleanup *)

(** Truth value of [os.environ.get(key, False)]: [False] when the variable
    is unset, otherwise the truth value of its string, which is false for
    the empty string only. *)
Definition environ_truthy (key : string) (env : gmap string string) : bool :=
  match env !! key with
  | None => false
  | Some v => negb (String.eqb v "")
  end.

Definition environ_get_truthy (key : string) : py world bool := λ w,
  (Return (environ_truthy key (environ w)), w).

(** The characters that make a pattern more than a plain name: the three
    that [glob] treats specially, and the separator of directories. *)
Definition plain_char (c : ascii) : bool :=
  negb (bool_decide (c ∈ ["*"; "?"; "["; "/"]%char)).

(** A plain name is not empty and has plain characters only. *)
Definition plain_name (name : string) : bool :=
  negb (String.eqb name "") && forallb plain_char (list_ascii_of_string name).

(** [glob.glob(name + '*')], with POSIX file names.  For a plain [name] the
    answer is the entries of the working directory whose name starts with
    [name]; for any other pattern the world says what [glob] finds. *)
Definition glob_star (name : string) : py world (list string) := λ w,
  (Return
     (if plain_name name
      then (map_to_list
              (filter (λ kv, String.prefix name kv.1 = true) (cwd w))).*1
      else glob_other w (name +:+ "*") (cwd w)),
   mk_world (glob_other w) (environ w) (cwd w) (rng w) (rng_pos w)
            (trace w ++ [EvGlob (name +:+ "*")])).

(** [os.remove(f)] *)
Definition os_remove (f : string) : py world unit := λ w,
  let w1 := mk_world (glob_other w) (environ w) (cwd w) (rng w) (rng_pos w)
                     (trace w ++ [EvRemove f]) in
  match cwd w !! f with
  | None => (Raise (mk_exn FileNotFoundError f), w1)
  | Some (Some e) => (Raise e, w1)
  | Some None => (Return (), set_cwd (delete f (cwd w)) w1)
  end.

Definition print (line : string) : py world unit := log (EvPrint line).

Definition build_fn_cleanup (name : string) : py world unit :=
  debug ← environ_get_truthy "MUJOCO_PY_DEBUG_FN_BUILDER";
  if negb debug then
    fs ← glob_star name;
    for_each fs (λ f,
      try_except (os_remove f) [PermissionError] (λ e,
        print ("Error removing " +:+ f +:+ ", continuing anyway: "
               +:+ exn_msg e)))
  else mret ().

(** One pass of the loop of [build_fn_cleanup]. *)
Definition remove_or_report (f : string) : py world unit :=
  try_except (os_remove f) [PermissionError] (λ e,
    print ("Error removing " +:+ f +:+ ", continuing anyway: " +:+ exn_msg e)).

(** Whether the debug switch of [build_fn_cleanup] is on in a world. *)
Definition debug_override (w : world) : bool :=
  environ_truthy "MUJOCO_PY_DEBUG_FN_BUILDER" (environ w).

(** The removals that [build_fn_cleanup] gets past: those that succeed and
    those that raise a [PermissionError]. *)
Definition removal_tolerated (r : option exn) : bool :=
  match r with
  | None => true
  | Some e => isinstance e [PermissionError]
  end.

(** Every entry whose name starts with [name] has a tolerated removal. *)
Definition removals_tolerated (name : string) (d : directory) : Prop :=
  map_Forall
    (λ p r, String.prefix name p = true → removal_tolerated r = true) d.

(** What one entry becomes when the entries starting with [name] are
    removed: it goes when it has the prefix and its removal succeeds. *)
Definition after_cleanup (name p : string) (entry : option (option exn))
    : option (option exn) :=
  match entry with
  | Some None => if String.prefix name p then None else Some None
  | other => other
  end.

(** ** build_callback_fn *)

(** The values that callers pass as [userdata_names].  The elements of a
    list or tuple are kept as the text that [str.format] renders them to. *)
Inductive pyobj : Type :=
  | PyList (xs : list string)
  | PyTuple (xs : list string)
  | PyStr (s : string)
  | PyInt (z : Z)
  | PyNone.

(** [isinstance(v, (list, tuple))] *)
Definition is_list_or_tuple (v : pyobj) : bool :=
  match v with
  | PyList _ | PyTuple _ => true
  | _ => false
  end.

(** ['{}'.format(v)] *)
Definition format_obj (v : pyobj) : string :=
  let items xs :=
    String.concat ", " ((λ x, "'" +:+ x +:+ "'") <$> xs) in
  match v with
  | PyList xs => "[" +:+ items xs +:+ "]"
  | PyTuple [x] => "('" +:+ x +:+ "',)"
  | PyTuple xs => "(" +:+ items xs +:+ ")"
  | PyStr s => s
  | PyInt z => pretty z
  | PyNone => "None"
  end.

Definition elements (v : pyobj) : list string :=
  match v with
  | PyList xs | PyTuple xs => xs
  | _ => []
  end.

Definition nl : string := String "010"%char "".

Definition ascii_lowercase : string := "abcdefghijklmnopqrstuvwxyz".

(** [random.choice(seq)] *)
Definition choice (chars : string) : py world ascii := λ w,
  let w1 := mk_world (glob_other w) (environ w) (cwd w) (rng w)
                     (S (rng_pos w)) (trace w) in
  match String.get (rng w (rng_pos w) `mod` String.length chars) chars with
  | Some c => (Return c, w1)
  | None =>
      (Raise (mk_exn IndexError "Cannot choose from an empty sequence"), w)
  end.

(** [''.join(choice(chars) for _ in range(n))] *)
Fixpoint join_choices (chars : string) (n : nat) : py world string :=
  match n with
  | 0 => mret ""
  | S n' =>
      c ← choice chars;
      rest ← join_choices chars n';
      mret (String c rest)
  end.

(** ['#define {} d->userdata[{}]\n'.format(data_name, i)] *)
Definition define_line (data_name : string) (i : nat) : string :=
  "#define " +:+ data_name +:+ " d->userdata[" +:+ pretty i +:+ "]" +:+ nl.

(** The loop [for i, data_name in enumerate(userdata_names)], from index
    [i] on, appending to [source_string]. *)
Fixpoint add_defines (source_string : string) (i : nat)
    (userdata_names : list string) : string :=
  match userdata_names with
  | [] => source_string
  | data_name :: rest =>
      add_defines (source_string +:+ define_line data_name i) (S i) rest
  end.

(** The text that [build_callback_fn] hands to the compiler. *)
Definition source_string (function_string : string)
    (userdata_names : list string) : string :=
  let source_string := "#include <mujoco.h>" +:+ nl in
  let source_string := add_defines source_string 0 userdata_names in
  let source_string := source_string +:+ function_string in
  source_string +:+ nl +:+ "uintptr_t __fun = (uintptr_t) fun;".

(** [os.path.join(a, b)] for a relative [b] *)
Definition path_join (a b : string) : string :=
  if String.eqb a "" then b
  else if bool_decide (String.get (String.length a - 1) a = Some "/"%char)
       then a +:+ b
       else a +:+ "/" +:+ b.

(** The module that the loader gives back; [lib_fun] is [module.lib.__fun]. *)
Record ffi_module : Type := mk_ffi_module { lib_fun : Z }.

(** The collaborators of a callback build.  Each one sees the working
    directory, may change it, and returns or raises. *)
Record toolchain : Type := mk_toolchain {
  ffi_compile :
    string → string → list string → list string → list string →
    directory → result string * directory;
  manually_link_libraries :
    string → string → directory → result string * directory;
  move : string → string → directory → result unit * directory;
  load_dynamic_ext :
    string → string → directory → result ffi_module * directory
}.

(** A call of a collaborator: its event is logged, then it acts. *)
Definition extern {A} (ev : event)
    (f : directory → result A * directory) : py world A := λ w,
  let '(r, fs) := f (cwd w) in
  (r, mk_world (glob_other w) (environ w) fs (rng w) (rng_pos w)
               (trace w ++ [ev])).

Section Builder.
Variable tc : toolchain.
Variable mujoco_path : string.    (* set by discover_mujoco() *)
Variable sys_platform : string.   (* sys.platform *)

Definition build_callback_fn (function_string : string)
    (userdata_names : pyobj) : py world Z :=
  (if is_list_or_tuple userdata_names then mret ()
   else raise (mk_exn AssertionError
                 ("invalid userdata_names: " +:+ format_obj userdata_names)));;
  letters ← join_choices ascii_lowercase 15;
  let name := "_fn_" +:+ letters in
  let source := source_string function_string (elements userdata_names) in
  let include_dirs := [path_join mujoco_path "include"] in
  let library_dirs := [path_join mujoco_path "bin"] in
  let libraries := ["mujoco200"] in
  library_path ←
    try_except
      (extern (EvCompile name source include_dirs library_dirs libraries)
         (ffi_compile tc name source include_dirs library_dirs libraries))
      [Exception]
      (λ e, build_fn_cleanup name;; raise e);
  (if String.eqb sys_platform "darwin" then
     fixed_library_path ←
       extern (EvRelink mujoco_path library_path)
         (manually_link_libraries tc mujoco_path library_path);
     extern (EvMove fixed_library_path library_path)
       (move tc fixed_library_path library_path)
   else mret ());;
  module ←
    extern (EvLoad name library_path) (load_dynamic_ext tc name library_path);
  build_fn_cleanup name;;
  mret (lib_fun module).
End Builder.

(** The name that a build draws in a world, and the world after the draws. *)
Definition build_name (w : world) : string :=
  "_fn_" +:+ match (join_choices ascii_lowercase 15 w).1 with
             | Return letters => letters
             | Raise _ => ""
             end.

Definition after_draws (w : world) : world :=
  mk_world (glob_other w) (environ w) (cwd w) (rng w) (rng_pos w + 15)
           (trace w).

(** The compile step of the build that starts in a world: its event, and
    what the compiler answers. *)
Definition compile_event (mujoco_path function_string : string)
    (userdata_names : pyobj) (w : world) : event :=
  EvCompile (build_name w)
    (source_string function_string (elements userdata_names))
    [path_join mujoco_path "include"] [path_join mujoco_path "bin"]
    ["mujoco200"].

Definition compile_outcome (tc : toolchain)
    (mujoco_path function_string : string) (userdata_names : pyobj)
    (w : world) : result string * directory :=
  ffi_compile tc (build_name w)
    (source_string function_string (elements userdata_names))
    [path_join mujoco_path "include"] [path_join mujoco_path "bin"]
    ["mujoco200"] (cwd w).

(** The world right after the compile step answered with directory [d]. *)
Definition after_compile (mujoco_path function_string : string)
    (userdata_names : pyobj) (d : directory) (w : world) : world :=
  mk_world (glob_other w) (environ w) d (rng w) (rng_pos w + 15)
    (trace w ++ [compile_event mujoco_path function_string userdata_names w]).

(** The lines of a text, one after the other. *)
Definition concat_lines (lines : list string) : string :=
  foldr String.app "" lines.

(** The directives of a list of names: one line per entry, numbered from 0. *)
Definition define_lines (userdata_names : list string) : list string :=
  imap (λ i data_name, define_line data_name i) userdata_names.

(** A computation only ever adds events to the trace. *)
Definition trace_grows {A} (m : py world A) : Prop :=
  ∀ w, ∃ rest, trace (m w).2 = (trace w ++ rest)%list.

(** Every entry that starts with [name] is one whose removal is refused
    with a [PermissionError]. *)
Definition only_refused_left (name : string) (d : directory) : Prop :=
  ∀ p r, d !! p = Some r → String.prefix name p = true →
         ∃ e, r = Some e ∧ isinstance e [PermissionError] = true.

(** ** Sample worlds *)

Definition access_denied : exn :=
  mk_exn PermissionError "[WinError 5] Access is denied".

Definition interrupted : exn := mk_exn KeyboardInterrupt "".

Definition bad_source : exn := mk_exn VerificationError "CompileError".

Definition bad_library : exn := mk_exn ImportError "invalid ELF header".

(** A working directory with a model file, and the files of the build
    named by fifteen draws of zero; the library cannot be removed. *)
Definition sample_dir : directory :=
  <["model.xml" := None]>
    (<["_fn_aaaaaaaaaaaaaaa.c" := None]>
       (<["_fn_aaaaaaaaaaaaaaa.so" := Some access_denied]> ∅)).

Definition sample_world : world :=
  mk_world (λ _ _, []) ∅ sample_dir (λ _, 0) 0 [].

(** The same with the debug switch set to the text 0. *)
Definition sample_world_debug : world :=
  mk_world (λ _ _, []) (<["MUJOCO_PY_DEBUG_FN_BUILDER" := "0"]> ∅)
           sample_dir (λ _, 0) 0 [].

(** A world with the model file only. *)
Definition clean_world : world :=
  mk_world (λ _ _, []) ∅ (<["model.xml" := None]> ∅) (λ _, 0) 0 [].

(** A toolchain in which every step works: the compiler writes the C file
    and the library, the loader gives a module whose symbol is 4096.  The
    library is locked once written when [locked] is set. *)
Definition working_toolchain (locked : bool) : toolchain :=
  mk_toolchain
    (λ name source _ _ _ d,
       (Return ("./" +:+ name +:+ ".so"),
        <[name +:+ ".so" := if locked then Some access_denied else None]>
          (<[name +:+ ".c" := None]> d)))
    (λ _ library_path d, (Return (library_path +:+ ".fixed"), d))
    (λ _ _ d, (Return (), d))
    (λ _ _ d, (Return (mk_ffi_module 4096), d)).

(** A toolchain whose compiler writes the C file and an object file and
    fails with [e]; the object file is locked when [locked] is set. *)
Definition failing_compiler (e : exn) (locked : bool) : toolchain :=
  mk_toolchain
    (λ name source _ _ _ d,
       (Raise e,
        <[name +:+ ".o" := if locked then Some access_denied else None]>
          (<[name +:+ ".c" := None]> d)))
    (λ _ library_path d, (Return (library_path +:+ ".fixed"), d))
    (λ _ _ d, (Return (), d))
    (λ _ _ d, (Return (mk_ffi_module 4096), d)).

(** A toolchain whose compiler works and whose loader fails. *)
Definition failing_loader : toolchain :=
  mk_toolchain
    (ffi_compile (working_toolchain false))
    (manually_link_libraries (working_toolchain false))
    (move (working_toolchain false))
    (λ _ _ d, (Raise bad_library, d)).

(** ** Warning translation *)

(** Python [str] values are kept as the bytes of their UTF-8 encoding, so
    that [+] is concatenation and [in] is the search of a byte substring
    (UTF-8 is self-synchronising, so both agree with the operations on
    code points). *)

(** [pat in s] *)
Fixpoint str_in (pat s : string) : bool :=
  String.prefix pat s ||
  match s with
  | EmptyString => false
  | String _ s' => str_in pat s'
  end.

(** A warning callback: called with the bytes of the warning, it returns
    [None] or raises. *)
Definition translator : Type := string → result unit.

Section Warnings.
(** Whether a byte string is well-formed UTF-8, which is when
    [bytes.decode()] succeeds. *)
Variable utf8_valid : string → bool.

Definition decode (b : string) : result string :=
  if utf8_valid b then Return b
  else Raise (mk_exn UnicodeDecodeError
                "'utf-8' codec can't decode bytes").

Definition user_warning_raise_exception : translator := λ warn_bytes,
  match decode warn_bytes with
  | Raise e => Raise e
  | Return warn =>
      if str_in "Pre-allocated constraint buffer is full" warn then
        Raise (mk_exn MujocoException
                 (warn +:+ "Increase njmax in mujoco XML"))
      else if str_in "Pre-allocated contact buffer is full" warn then
        Raise (mk_exn MujocoException
                 (warn +:+ "Increase njconmax in mujoco XML"))
      else if str_in "Unknown warning type" warn then
        Raise (mk_exn MujocoException
                 (warn +:+ "Check for NaN in simulation."))
      else
        Raise (mk_exn MujocoException ("Got MuJoCo Warning: " +:+ warn))
  end.
End Warnings.

Definition user_warning_ignore_exception : translator := λ warn_bytes,
  Return ().

(** The rules of the raising translator as the specification lists them:
    a pattern and the hint appended to the warning, in priority order. *)
Definition warning_rules : list (string * string) :=
  [ ("Pre-allocated constraint buffer is full",
     "Increase njmax in mujoco XML");
    ("Pre-allocated contact buffer is full",
     "Increase njconmax in mujoco XML");
    ("Unknown warning type", "Check for NaN in simulation.") ].

(** The message the specification asks for: the hint of the first rule whose
    pattern occurs in the warning, or the generic wrapping. *)
Definition spec_message (warn : string) : string :=
  match find (λ r, str_in r.1 warn) warning_rules with
  | Some r => warn +:+ r.2
  | None => "Got MuJoCo Warning: " +:+ warn
  end.

(** Modelled from the spec: the callback slot of the extension module
    [cymj], which is built by [compile_with_multiple_attempts] and whose
    code is outside this module ("TranslatorState: process-wide, holds the
    currently active translator function").
    [get_warning_callback] reads the slot, [set_warning_callback] replaces
    its content. *)
Record cymj_state : Type := mk_cymj { warning_callback : translator }.

Definition get_warning_callback : py cymj_state translator := λ s,
  (Return (warning_callback s), s).

Definition set_warning_callback (t : translator) : py cymj_state unit := λ s,
  (Return (), mk_cymj t).

(** The native layer reports a warning: it calls the callback in the slot. *)
Definition emit_warning (warn_bytes : string) : py cymj_state unit := λ s,
  (warning_callback s warn_bytes, s).

(** An instance of [ignore_mujoco_warnings]; the attribute is unset until
    [__enter__] runs. *)
Record ignore_mujoco_warnings : Type := mk_scope {
  prev_user_warning : option translator
}.

(** [ignore_mujoco_warnings.__enter__] *)
Definition scope_enter (self : ignore_mujoco_warnings)
    : py cymj_state ignore_mujoco_warnings :=
  prev ← get_warning_callback;
  let self := mk_scope (Some prev) in
  set_warning_callback user_warning_ignore_exception;;
  mret self.

(** [ignore_mujoco_warnings.__exit__]; it returns [None]. *)
Definition scope_exit (self : ignore_mujoco_warnings) : py cymj_state unit :=
  match prev_user_warning self with
  | Some prev => set_warning_callback prev
  | None => raise (mk_exn AttributeError "prev_user_warning")
  end.

(** [with ignore_mujoco_warnings(): body].  The statement makes the
    instance, enters it, runs the body and calls [__exit__] whether the body
    returned or raised; as [__exit__] returns [None], an exception of the
    body goes on to the caller afterwards. *)
Definition with_ignore_mujoco_warnings {A} (body : py cymj_state A)
    : py cymj_state A := λ s,
  match scope_enter (mk_scope None) s with
  | (Raise e, s1) => (Raise e, s1)
  | (Return self, s1) =>
      let '(r, s2) := body s1 in
      match scope_exit self s2 with
      | (Raise e, s3) => (Raise e, s3)
      | (Return _, s3) => (r, s3)
      end
  end.

(** ** compile_with_multiple_attempts *)

(** How [subprocess.check_call(args, timeout=150)] can end: the child
    exits with status 0, exits with another status, is still running when
    the time is up, or could not be started. *)
Inductive check_call_outcome : Type :=
  | ExitZero
  | ExitNonZero (status : Z)
  | TimedOut
  | SpawnFailed (e : exn).

(** What [check_call] does in each case: a non-zero status raises
    [CalledProcessError], an expired timeout raises
    [subprocess.TimeoutExpired]. *)
Definition check_call_result (o : check_call_outcome) : result unit :=
  match o with
  | ExitZero => Return ()
  | ExitNonZero status =>
      Raise (mk_exn CalledProcessError "returned non-zero exit status")
  | TimedOut => Raise (mk_exn TimeoutExpired "timed out after 150 seconds")
  | SpawnFailed e => Raise e
  end.

(** The loaded extension module. *)
Record ext_module : Type := mk_ext_module {
  ext_name : string;
  ext_file : string
}.

(** What the outside does during one pass of the loop. *)
Record attempt_env : Type := mk_attempt_env {
  build_step : check_call_outcome;     (* the run of compile_mujoco.py *)
  so_files : list string;              (* glob.glob(".../generated/*.so") *)
  load_step : string → string → result ext_module   (* load_dynamic_ext *)
}.

Inductive build_event : Type :=
  | EvCheckCall (args : list string) (timeout : nat)
  | EvGlobSo (pattern : string)
  | EvLoadExt (name so_path : string)
  | EvRemoveBuild.

Section Orchestrator.
Variable module_dir : string.         (* os.path.dirname(__file__) *)
Variable env : nat → attempt_env.     (* the outside, pass by pass *)

Definition build_log (ev : build_event) : py (list build_event) unit :=
  λ t, (Return (), (t ++ [ev])%list).

Definition check_call (attempt : nat) (args : list string) (timeout : nat)
    : py (list build_event) unit := λ t,
  (check_call_result (build_step (env attempt)),
   (t ++ [EvCheckCall args timeout])%list).

Definition glob_so (attempt : nat) (pattern : string)
    : py (list build_event) (list string) := λ t,
  (Return (so_files (env attempt)), (t ++ [EvGlobSo pattern])%list).

Definition load_cymj (attempt : nat) (name so_path : string)
    : py (list build_event) ext_module := λ t,
  (load_step (env attempt) name so_path,
   (t ++ [EvLoadExt name so_path])%list).

(** Modelled from the spec: [remove_mujoco_build] of [mujoco_py.utils],
    whose code is outside this module ("destructively clean the build
    workspace").  Only the call is recorded. *)
Definition remove_mujoco_build : py (list build_event) unit :=
  build_log EvRemoveBuild.

(** The body of the [try] of one pass. *)
Definition attempt_body (compile_mujoco_path : string) (attempt : nat)
    : py (list build_event) ext_module :=
  check_call attempt ["python"; compile_mujoco_path] 150;;
  let so_path := path_join (path_join module_dir "generated") "*.so" in
  cext_so_path ← glob_so attempt so_path;
  match cext_so_path with
  | [cext_so_path] => load_cymj attempt "cymj" cext_so_path
  | _ => raise (mk_exn AssertionError
                  ("Expecting only one .so file under " +:+ so_path))
  end.

(** The loop over the remaining values of [attempt], and the statement
    after the loop. *)
Fixpoint attempts_loop (compile_mujoco_path : string) (attempts : list nat)
    : py (list build_event) ext_module :=
  match attempts with
  | [] => raise (mk_exn Exception "Failed to compile mujoco_py.")
  | attempt :: rest =>
      r ← try_except
            (Some <$> attempt_body compile_mujoco_path attempt)
            [CalledProcessError; TimeoutError; ImportError]
            (λ _, remove_mujoco_build;; mret None);
      match r with
      | Some cymj => mret cymj
      | None => attempts_loop compile_mujoco_path rest
      end
  end.

Definition compile_with_multiple_attempts
    : py (list build_event) ext_module :=
  let compile_mujoco_path := path_join module_dir "compile_mujoco.py" in
  attempts_loop compile_mujoco_path (seq 0 3).
End Orchestrator.

(** ** Sample build environments *)

(** The run of compile_mujoco.py never ends in time. *)
Definition always_times_out : nat → attempt_env := λ _,
  mk_attempt_env TimedOut []
    (λ name so_path, Return (mk_ext_module name so_path)).

(** Every pass ends with the built-in [TimeoutError]. *)
Definition always_timeout_error : nat → attempt_env := λ _,
  mk_attempt_env (SpawnFailed (mk_exn TimeoutError "timed out")) []
    (λ name so_path, Return (mk_ext_module name so_path)).

(** The first two runs exit with status 1, the later ones with status 0 and
    one library in place. *)
Definition fails_twice : nat → attempt_env := λ attempt,
  mk_attempt_env
    (if decide (attempt < 2) then ExitNonZero 1 else ExitZero)
    ["/site-packages/mujoco_py/generated/cymj.so"]
    (λ name so_path, Return (mk_ext_module name so_path)).

(** The classes that the loop of [compile_with_multiple_attempts] catches. *)
Definition retried : list exn_class :=
  [CalledProcessError; TimeoutError; ImportError].

(** ** Definitions for the further properties *)

(** The world right after the loader was called on [library_path] and left
    the directory [d], in a build that did not relink. *)
Definition after_load (mujoco_path function_string : string)
    (userdata_names : pyobj) (library_path : string) (d : directory)
    (w : world) : world :=
  mk_world (glob_other w) (environ w) d (rng w) (rng_pos w + 15)
    (trace w ++ [compile_event mujoco_path function_string userdata_names w;
                 EvLoad (build_name w) library_path]).

(** The same in a build that relinked: the relinked library was written to
    [fixed_library_path] and moved over [library_path]. *)
Definition after_relinked_load (mujoco_path function_string : string)
    (userdata_names : pyobj) (library_path fixed_library_path : string)
    (d : directory) (w : world) : world :=
  mk_world (glob_other w) (environ w) d (rng w) (rng_pos w + 15)
    (trace w ++ [compile_event mujoco_path function_string userdata_names w;
                 EvRelink mujoco_path library_path;
                 EvMove fixed_library_path library_path;
                 EvLoad (build_name w) library_path]).


(** A directory in which an entry with the prefix of the sample build is a
    directory itself: [os.remove] raises [IsADirectoryError] on it. *)
Definition not_a_file : exn := mk_exn IsADirectoryError "Is a directory".

Definition world_with_subdirectory : world :=
  mk_world (λ _ _, []) ∅
    (<["_fn_aaaaaaaaaaaaaaa.dSYM" := Some not_a_file]>
       (<["model.xml" := None]> ∅))
    (λ _, 0) 0 [].



(** A toolchain that works, with a relinker that fails. *)
Definition failing_relinker : toolchain :=
  mk_toolchain
    (ffi_compile (working_toolchain false))
    (λ _ _ d, (Raise (mk_exn CalledProcessError "install_name_tool"), d))
    (move (working_toolchain false))
    (load_dynamic_ext (working_toolchain false)).

(** ** The registry of native functions *)

(** The last statements of the module copy every attribute of [cymj] whose
    name starts with [_mj] to the object [functions], under the name without
    its first character.  An object is the map of its attributes;
    [names] is [dir(cymj)]. *)
Section Registry.
Context {V : Type}.

(** [func_name[1:]] *)
Definition drop_first (func_name : string) : string :=
  match func_name with
  | EmptyString => EmptyString
  | String _ rest => rest
  end.

(** [getattr(cymj, func_name)] *)
Definition getattr (cymj : gmap string V) (func_name : string) : result V :=
  match cymj !! func_name with
  | Some f => Return f
  | None => Raise (mk_exn AttributeError func_name)
  end.

(** The loop [for func_name in dir(cymj)], on the names that are left. *)
Fixpoint expose_functions (names : list string) (cymj : gmap string V)
    (functions : gmap string V) : result (gmap string V) :=
  match names with
  | [] => Return functions
  | func_name :: rest =>
      if String.prefix "_mj" func_name then
        match getattr cymj func_name with
        | Return f =>
            expose_functions rest cymj (<[drop_first func_name := f]> functions)
        | Raise e => Raise e
        end
      else expose_functions rest cymj functions
  end.
End Registry.

(** The attributes of a small extension module. *)
Definition sample_cymj : gmap string nat :=
  <["_mj_step" := 1]> (<["_mj_forward" := 2]>
    (<["set_warning_callback" := 3]> (<["__name__" := 4]> ∅))).

(** ** Counting the events of the attempts *)

Definition is_check_call (ev : build_event) : bool :=
  match ev with
  | EvCheckCall _ _ => true
  | _ => false
  end.

Definition is_remove_build (ev : build_event) : bool :=
  match ev with
  | EvRemoveBuild => true
  | _ => false
  end.

(** How often the build step ran, and how often the build was removed. *)
Definition runs (t : list build_event) : nat :=
  length (List.filter is_check_call t).

Definition cleanups (t : list build_event) : nat :=
  length (List.filter is_remove_build t).

(** One pass of the loop, started on an empty trace: its outcome and its
    events. *)
Definition attempt_outcome (module_dir : string) (env : nat → attempt_env)
    (attempt : nat) : result ext_module * list build_event :=
  attempt_body module_dir env (path_join module_dir "compile_mujoco.py")
    attempt [].

(** The loader finds a broken library twice, then a good one. *)
Definition loads_third_time : nat → attempt_env := λ attempt,
  mk_attempt_env ExitZero ["/site-packages/mujoco_py/generated/cymj.so"]
    (λ name so_path,
       if decide (attempt < 2)
       then Raise (mk_exn ImportError "undefined symbol")
       else Return (mk_ext_module name so_path)).

(** The build step works and leaves two libraries. *)
Definition two_libraries : nat → attempt_env := λ _,
  mk_attempt_env ExitZero
    ["/site-packages/mujoco_py/generated/cymj.so";
     "/site-packages/mujoco_py/generated/cymj_old.so"]
    (λ name so_path, Return (mk_ext_module name so_path)).

(** * Properties *)

Ltac py_unfold :=
  unfold mbind, py_bind, mret, py_ret, fmap, py_fmap, raise, try_except.

(** ** Strings *)

Lemma prefix_spec (p s : string) :
  String.prefix p s = true ↔ ∃ t, s = p +:+ t.
Proof.
  revert s. induction p as [|c p IH]; intros s.
  - destruct s; simpl; split; eauto.
  - destruct s as [|d s]; simpl; [split; [done | intros [t Ht]; discriminate]|].
    destruct (Ascii.ascii_dec c d) as [->|Hne].
    + rewrite IH. split; intros [t Ht]; exists t.
      * change (String d s = String d (p +:+ t)). by rewrite Ht.
      * change (String d s = String d (p +:+ t)) in Ht. by injection Ht.
    + split; [done | intros [t Ht]].
      change (String d s = String c (p +:+ t)) in Ht.
      injection Ht as Hcd _. by destruct Hne.
Qed.

Lemma str_in_nil pat : str_in pat "" = String.prefix pat "" || false.
Proof. reflexivity. Qed.

Lemma str_in_cons pat c s :
  str_in pat (String c s) = String.prefix pat (String c s) || str_in pat s.
Proof. reflexivity. Qed.

Lemma str_in_spec (pat s : string) :
  str_in pat s = true ↔ ∃ a b, s = a +:+ pat +:+ b.
Proof.
  induction s as [|c s IH].
  - rewrite str_in_nil, orb_false_r, prefix_spec. split.
    + intros [t Ht]. by exists "", t.
    + intros [a [b Hab]]. destruct a; [by exists b | discriminate].
  - rewrite str_in_cons, orb_true_iff, prefix_spec, IH. split.
    + intros [[t Ht] | [a [b Hab]]]; [by exists "", t |].
      exists (String c a), b. change (String c s = String c (a +:+ pat +:+ b)).
      by rewrite Hab.
    + intros [a [b Hab]]. destruct a as [|d a]; [left; by exists b |].
      right. exists a, b.
      change (String c s = String d (a +:+ pat +:+ b)) in Hab.
      by injection Hab.
Qed.

Lemma string_app_cons x (a b : string) :
  String x a +:+ b = String x (a +:+ b).
Proof. reflexivity. Qed.

Lemma string_app_assoc (a b c : string) : (a +:+ b) +:+ c = a +:+ (b +:+ c).
Proof.
  induction a as [|x a IH]; [done|]. by rewrite !string_app_cons, IH.
Qed.

Lemma string_app_nil_r (a : string) : a +:+ "" = a.
Proof. induction a as [|x a IH]; [done|]. by rewrite string_app_cons, IH. Qed.

Lemma str_in_app_l (a b : string) : str_in a (a +:+ b) = true.
Proof. apply str_in_spec. by exists "", b. Qed.

Lemma str_in_app_r (a b : string) : str_in b (a +:+ b) = true.
Proof. apply str_in_spec. exists a, "". by rewrite string_app_nil_r. Qed.

(** ** The cleanup loop *)

Lemma remove_or_report_tolerated f r w :
  cwd w !! f = Some r → removal_tolerated r = true →
  ∃ w', remove_or_report f w = (Return (), w') ∧
        environ w' = environ w ∧
        cwd w' = match r with None => delete f (cwd w) | Some _ => cwd w end.
Proof.
  intros Hf Hr. unfold remove_or_report, try_except, os_remove. rewrite Hf.
  destruct r as [e|]; simpl in *.
  - rewrite Hr. eexists. split; [reflexivity | done].
  - eexists. split; [reflexivity | done].
Qed.

Lemma cleanup_loop fs : ∀ w,
  NoDup fs →
  (∀ f, f ∈ fs → ∃ r, cwd w !! f = Some r ∧ removal_tolerated r = true) →
  ∃ w', for_each fs remove_or_report w = (Return (), w') ∧
        environ w' = environ w ∧
        ∀ p, cwd w' !! p =
             if decide (p ∈ fs)
             then match cwd w !! p with Some None => None | o => o end
             else cwd w !! p.
Proof.
  induction fs as [|f fs IH]; intros w Hnd Hall; simpl.
  - exists w. split; [done|]. split; [done|]. intros p.
    destruct (decide (p ∈ [])) as [Hin|]; [by apply elem_of_nil in Hin | done].
  - apply NoDup_cons in Hnd as [Hf Hnd].
    destruct (Hall f) as [r [Hlk Hr]]; [left|].
    destruct (remove_or_report_tolerated f r w Hlk Hr) as [w1 [E1 [Henv1 Hcwd1]]].
    assert (Hother : ∀ q, q ≠ f → cwd w1 !! q = cwd w !! q).
    { intros q Hq. rewrite Hcwd1. destruct r; [done|].
      by rewrite lookup_delete_ne. }
    destruct (IH w1 Hnd) as [w2 [E2 [Henv2 Hcwd2]]].
    { intros g Hg. rewrite Hother; [apply Hall; by right|].
      intros ->. done. }
    exists w2. split.
    { py_unfold. rewrite E1. exact E2. }
    split; [congruence|]. intros p. rewrite Hcwd2.
    destruct (decide (p = f)) as [->|Hne].
    + destruct (decide (f ∈ fs)); [done|].
      destruct (decide (f ∈ f :: fs)) as [_|Hn]; [|destruct Hn; left].
      rewrite Hcwd1, Hlk. destruct r; [done|]. by rewrite lookup_delete_eq.
    + rewrite (Hother p Hne).
      destruct (decide (p ∈ fs)) as [Hin|Hin];
        destruct (decide (p ∈ f :: fs)) as [Hin'|Hin']; try done.
      * destruct Hin'. by right.
      * apply elem_of_cons in Hin' as [?|?]; done.
Qed.

Lemma debug_override_false w :
  debug_override w = false ↔
  environ w !! "MUJOCO_PY_DEBUG_FN_BUILDER" = None ∨
  environ w !! "MUJOCO_PY_DEBUG_FN_BUILDER" = Some "".
Proof.
  unfold debug_override, environ_truthy.
  destruct (environ w !! "MUJOCO_PY_DEBUG_FN_BUILDER") as [v|]; [|by split; auto].
  destruct (String.eqb_spec v "") as [->|Hne]; simpl.
  - split; [by right | done].
  - split; [done | intros [?|?]; congruence].
Qed.

Lemma build_fn_cleanup_debug name w :
  debug_override w = true → build_fn_cleanup name w = (Return (), w).
Proof.
  intros H. unfold build_fn_cleanup, environ_get_truthy. py_unfold.
  fold (debug_override w). by rewrite H.
Qed.

Lemma elem_of_glob name (d : directory) f :
  f ∈ (map_to_list (filter (λ kv, String.prefix name kv.1 = true) d)).*1 ↔
  ∃ r, d !! f = Some r ∧ String.prefix name f = true.
Proof.
  rewrite list_elem_of_fmap. split.
  - intros [[q r] [-> Hin]]. apply elem_of_map_to_list in Hin.
    apply map_lookup_filter_Some in Hin as [? ?]. by exists r.
  - intros [r [Hlk Hp]]. exists (f, r). split; [done|].
    apply elem_of_map_to_list. by apply map_lookup_filter_Some.
Qed.

Lemma build_fn_cleanup_sweeps name w :
  plain_name name = true →
  debug_override w = false → removals_tolerated name (cwd w) →
  ∃ w', build_fn_cleanup name w = (Return (), w') ∧
        environ w' = environ w ∧
        ∀ p, cwd w' !! p = after_cleanup name p (cwd w !! p).
Proof.
  intros Hplain Hd Htol.
  unfold build_fn_cleanup, environ_get_truthy, glob_star.
  py_unfold. fold (debug_override w). rewrite Hd, Hplain. simpl.
  set (w1 := mk_world _ _ _ _ _ _).
  match goal with |- context [for_each ?l _] => set (fs := l) end.
  assert (Hfs : ∀ f, f ∈ fs ↔
                ∃ r, cwd w !! f = Some r ∧ String.prefix name f = true)
    by (intros f; apply elem_of_glob).
  destruct (cleanup_loop fs w1) as [w' [E [Henv Hcwd]]].
  { apply NoDup_fst_map_to_list. }
  { intros f [r [Hlk Hp]]%Hfs. exists r. split; [done|].
    by apply (Htol f r Hlk). }
  exists w'. split; [exact E|]. split; [done|]. intros p. rewrite Hcwd.
  unfold after_cleanup. simpl.
  destruct (decide (p ∈ fs)) as [Hin|Hin].
  - apply Hfs in Hin as [r [Hlk Hp]]. rewrite Hlk, Hp. by destruct r.
  - destruct (cwd w !! p) as [r|] eqn:Hlk; [|done].
    destruct (String.prefix name p) eqn:Hp; [|by destruct r].
    destruct Hin. apply Hfs. by exists r.
Qed.

(** C9, counterexample: with the debug variable unset, a file that starts
    with the prefix and whose removal is refused is still there after
    [build_fn_cleanup], which returns normally. *)
Lemma C9_counterexample :
  environ sample_world !! "MUJOCO_PY_DEBUG_FN_BUILDER" = None ∧
  String.prefix "_fn_aaaaaaaaaaaaaaa" "_fn_aaaaaaaaaaaaaaa.so" = true ∧
  (build_fn_cleanup "_fn_aaaaaaaaaaaaaaa" sample_world).1 = Return () ∧
  cwd (build_fn_cleanup "_fn_aaaaaaaaaaaaaaa" sample_world).2
    !! "_fn_aaaaaaaaaaaaaaa.so" = Some (Some access_denied).
Proof. vm_compute. done. Qed.

(** The debug switch is on for every non-empty text, such as 0. *)
Lemma debug_switch_text_zero :
  build_fn_cleanup "_fn_aaaaaaaaaaaaaaa" sample_world_debug
  = (Return (), sample_world_debug).
Proof. by apply build_fn_cleanup_debug. Qed.

(** C9, amended: when the debug variable is set to a non-empty text,
    [build_fn_cleanup] returns without any effect.  When it is unset or
    empty, the prefix is a plain name (as the name of every build is), and
    no removal of an entry that starts with the prefix raises anything else
    than [PermissionError], [build_fn_cleanup] returns normally, and
    afterwards the entries that start with the prefix and whose removal
    succeeds are gone, while every other entry, among them those whose
    removal was refused, is as before. *)
Theorem C9_build_fn_cleanup_gate (name : string) (w : world) :
  (debug_override w = false ↔
     environ w !! "MUJOCO_PY_DEBUG_FN_BUILDER" = None ∨
     environ w !! "MUJOCO_PY_DEBUG_FN_BUILDER" = Some "") ∧
  if debug_override w then build_fn_cleanup name w = (Return (), w)
  else
    plain_name name = true →
    removals_tolerated name (cwd w) →
    (build_fn_cleanup name w).1 = Return () ∧
    environ (build_fn_cleanup name w).2 = environ w ∧
    ∀ p, cwd (build_fn_cleanup name w).2 !! p
         = after_cleanup name p (cwd w !! p).
Proof.
  split; [apply debug_override_false|].
  destruct (debug_override w) eqn:Hd.
  - by apply build_fn_cleanup_debug.
  - intros Hplain Htol.
    destruct (build_fn_cleanup_sweeps name w Hplain Hd Htol)
      as [w' [E [Henv Hcwd]]].
    by rewrite E.
Qed.

Lemma C9_build_fn_cleanup_gate_witness :
  removals_tolerated "_fn_aaaaaaaaaaaaaaa" (cwd sample_world) ∧
  (build_fn_cleanup "_fn_aaaaaaaaaaaaaaa" sample_world).1 = Return () ∧
  environ (build_fn_cleanup "_fn_aaaaaaaaaaaaaaa" sample_world).2
    = environ sample_world ∧
  ∀ p, cwd (build_fn_cleanup "_fn_aaaaaaaaaaaaaaa" sample_world).2 !! p
       = after_cleanup "_fn_aaaaaaaaaaaaaaa" p (cwd sample_world !! p).
Proof.
  assert (H : removals_tolerated "_fn_aaaaaaaaaaaaaaa" (cwd sample_world)).
  { apply (bool_decide_unpack _). vm_compute. exact I. }
  split; [exact H|].
  exact (proj2 (C9_build_fn_cleanup_gate "_fn_aaaaaaaaaaaaaaa" sample_world)
           eq_refl H).
Defined.

(** ** The callback build *)

Lemma get_ascii_lowercase i :
  i < 26 →
  ∃ c, String.get i ascii_lowercase = Some c ∧ plain_char c = true.
Proof.
  intros Hi. do 26 (destruct i as [|i]; [by eexists|]). lia.
Qed.

Lemma choice_ascii_lowercase w :
  ∃ c, choice ascii_lowercase w
       = (Return c,
          mk_world (glob_other w) (environ w) (cwd w) (rng w)
            (S (rng_pos w)) (trace w)) ∧
       plain_char c = true.
Proof.
  unfold choice.
  destruct (get_ascii_lowercase
              (rng w (rng_pos w) `mod` String.length ascii_lowercase))
    as [c [Hc Hplain]].
  { apply Nat.mod_upper_bound. done. }
  exists c. by rewrite Hc.
Qed.

Lemma join_choices_ascii_lowercase n : ∀ w,
  ∃ letters, join_choices ascii_lowercase n w
    = (Return letters,
       mk_world (glob_other w) (environ w) (cwd w) (rng w)
         (rng_pos w + n) (trace w)) ∧
    forallb plain_char (list_ascii_of_string letters) = true.
Proof.
  induction n as [|n IH]; intros w; simpl.
  - exists "". py_unfold. destruct w; simpl. by rewrite Nat.add_0_r.
  - destruct (choice_ascii_lowercase w) as [c [Hc Hplain]].
    destruct (IH (mk_world (glob_other w) (environ w) (cwd w) (rng w)
                    (S (rng_pos w)) (trace w)))
      as [rest [Hrest Hplains]].
    exists (String c rest). py_unfold. rewrite Hc, Hrest. simpl.
    rewrite Nat.add_succ_r, Hplain. done.
Qed.

Lemma draw_build_name w :
  ∃ letters, join_choices ascii_lowercase 15 w = (Return letters, after_draws w) ∧
             build_name w = "_fn_" +:+ letters.
Proof.
  destruct (join_choices_ascii_lowercase 15 w) as [letters [E _]].
  exists letters. split; [exact E|]. unfold build_name. by rewrite E.
Qed.

(** The name of a build is a plain name, so that the pattern handed to
    [glob] by the cleanup means "starts with this name". *)
Lemma build_name_plain w : plain_name (build_name w) = true.
Proof.
  destruct (join_choices_ascii_lowercase 15 w) as [letters [E Hplain]].
  unfold build_name. rewrite E. simpl. exact Hplain.
Qed.

(** C10: when [userdata_names] is neither a list nor a tuple,
    [build_callback_fn] raises an [AssertionError] and the world is as it
    was: no random draw, no file, no call of the toolchain, no event. *)
Theorem C10_assertion_before_effects (tc : toolchain)
    (mujoco_path sys_platform function_string : string)
    (userdata_names : pyobj) (w : world) :
  is_list_or_tuple userdata_names = false →
  build_callback_fn tc mujoco_path sys_platform function_string
    userdata_names w
  = (Raise (mk_exn AssertionError
              ("invalid userdata_names: " +:+ format_obj userdata_names)), w).
Proof.
  intros H. unfold build_callback_fn. py_unfold. by rewrite H.
Qed.

Lemma C10_assertion_before_effects_witness :
  build_callback_fn (working_toolchain false) "/opt/mujoco200" "linux"
    "void fun(const mjModel* m, mjData* d) {}" (PyStr "my_sum") clean_world
  = (Raise (mk_exn AssertionError "invalid userdata_names: my_sum"),
     clean_world)
  ∧
  build_callback_fn (working_toolchain false) "/opt/mujoco200" "linux"
    "void fun(const mjModel* m, mjData* d) {}" PyNone clean_world
  = (Raise (mk_exn AssertionError "invalid userdata_names: None"),
     clean_world).
Proof.
  split.
  - exact (C10_assertion_before_effects (working_toolchain false)
             "/opt/mujoco200" "linux"
             "void fun(const mjModel* m, mjData* d) {}" (PyStr "my_sum")
             clean_world eq_refl).
  - exact (C10_assertion_before_effects (working_toolchain false)
             "/opt/mujoco200" "linux"
             "void fun(const mjModel* m, mjData* d) {}" PyNone
             clean_world eq_refl).
Defined.

Lemma remove_or_report_returns f w w1 :
  remove_or_report f w = (Return (), w1) →
  ∃ r, cwd w !! f = Some r ∧ removal_tolerated r = true.
Proof.
  unfold remove_or_report, try_except, os_remove.
  destruct (cwd w !! f) as [[e|]|]; simpl.
  - destruct (isinstance e [PermissionError]) eqn:He; [|discriminate].
    intros _. by exists (Some e).
  - intros _. by exists None.
  - discriminate.
Qed.

Lemma cleanup_loop_returns fs : ∀ w w',
  NoDup fs →
  for_each fs remove_or_report w = (Return (), w') →
  ∀ f, f ∈ fs → ∃ r, cwd w !! f = Some r ∧ removal_tolerated r = true.
Proof.
  induction fs as [|f fs IH]; intros w w' Hnd Hrun g Hg.
  - by apply elem_of_nil in Hg.
  - apply NoDup_cons in Hnd as [Hf Hnd]. simpl in Hrun.
    unfold mbind, py_bind in Hrun.
    destruct (remove_or_report f w) as [[[]|e] w1] eqn:E1; [|discriminate].
    destruct (remove_or_report_returns f w w1 E1) as [r [Hlk Hr]].
    apply elem_of_cons in Hg as [->|Hg]; [by exists r|].
    destruct (IH w1 w' Hnd Hrun g Hg) as [r' [Hlk' Hr']].
    exists r'. split; [|done]. rewrite <- Hlk'.
    destruct (remove_or_report_tolerated f r w Hlk Hr) as [w1' [E1' [_ Hcwd]]].
    rewrite E1 in E1'. injection E1' as <-. rewrite Hcwd.
    destruct r; [done|]. rewrite lookup_delete_ne; [done|]. by intros ->.
Qed.

Lemma build_fn_cleanup_returns name w w' :
  plain_name name = true →
  debug_override w = false →
  build_fn_cleanup name w = (Return (), w') →
  removals_tolerated name (cwd w).
Proof.
  intros Hplain Hd Hrun p r Hlk Hp.
  unfold build_fn_cleanup, environ_get_truthy, glob_star in Hrun.
  unfold mbind at 1 2, py_bind at 1 2 in Hrun.
  fold (debug_override w) in Hrun. rewrite Hd, Hplain in Hrun. simpl in Hrun.
  match type of Hrun with for_each ?l _ ?w1 = _ =>
    destruct (cleanup_loop_returns l w1 w') with (f := p) as [r' [Hlk' Hr']]
  end.
  - apply NoDup_fst_map_to_list.
  - exact Hrun.
  - apply elem_of_glob. by exists r.
  - simpl in Hlk'. congruence.
Qed.

Lemma cleanup_leaves_refused name w w' :
  plain_name name = true →
  debug_override w = false →
  build_fn_cleanup name w = (Return (), w') →
  only_refused_left name (cwd w').
Proof.
  intros Hplain Hd Hrun p r Hlk Hp.
  pose proof (build_fn_cleanup_returns name w w' Hplain Hd Hrun) as Htol.
  destruct (build_fn_cleanup_sweeps name w Hplain Hd Htol)
    as [w'' [E [_ Hcwd]]].
  rewrite Hrun in E. injection E as <-.
  rewrite Hcwd in Hlk. unfold after_cleanup in Hlk.
  destruct (cwd w !! p) as [[e|]|] eqn:Hp0.
  - injection Hlk as <-. exists e. split; [done|]. exact (Htol p _ Hp0 Hp).
  - by rewrite Hp in Hlk.
  - done.
Qed.

Lemma build_callback_fn_compile_raises tc mp plat body v w e d :
  is_list_or_tuple v = true →
  compile_outcome tc mp body v w = (Raise e, d) →
  build_callback_fn tc mp plat body v w
  = if isinstance e [Exception]
    then match build_fn_cleanup (build_name w) (after_compile mp body v d w) with
         | (Return _, w3) => (Raise e, w3)
         | (Raise e', w3) => (Raise e', w3)
         end
    else (Raise e, after_compile mp body v d w).
Proof.
  intros Hv Hc. unfold build_callback_fn.
  destruct (draw_build_name w) as [letters [Hdraw Hname]].
  unfold mbind at 1 2 ; unfold py_bind at 1 2. rewrite Hv.
  unfold mret at 1, py_ret at 1. rewrite Hdraw. rewrite <- Hname.
  unfold mbind at 1, py_bind at 1, try_except at 1, extern at 1.
  unfold compile_outcome in Hc. simpl. rewrite Hc.
  fold (compile_event mp body v w). fold (after_compile mp body v d w).
  destruct (isinstance e [Exception]); [|done].
  unfold mbind, py_bind, raise.
  by destruct (build_fn_cleanup _ _) as [[[]|e'] w3].
Qed.

Lemma build_callback_fn_returns tc mp plat body v w ptr w' :
  build_callback_fn tc mp plat body v w = (Return ptr, w') →
  ∃ lib d w3,
    is_list_or_tuple v = true ∧
    compile_outcome tc mp body v w = (Return lib, d) ∧
    environ w3 = environ w ∧
    last (trace w3) = Some (EvLoad (build_name w) lib) ∧
    build_fn_cleanup (build_name w) w3 = (Return (), w').
Proof.
  unfold build_callback_fn.
  destruct (draw_build_name w) as [letters [Hdraw Hname]].
  unfold mbind at 1 2 ; unfold py_bind at 1 2.
  destruct (is_list_or_tuple v) eqn:Hv; [|discriminate].
  unfold mret at 1, py_ret at 1. rewrite Hdraw. rewrite <- Hname.
  unfold mbind at 1, py_bind at 1, try_except at 1, extern at 1.
  simpl. fold (compile_outcome tc mp body v w).
  destruct (compile_outcome tc mp body v w) as [[lib|e] d] eqn:Hc.
  2:{ destruct (isinstance e [Exception]); [|discriminate].
      unfold mbind, py_bind, raise.
      destruct (build_fn_cleanup _ _) as [[[]|e'] w3]; discriminate. }
  fold (compile_event mp body v w). fold (after_compile mp body v d w).
  unfold mbind at 1, py_bind at 1.
  match goal with |- context [?r (after_compile mp body v d w)] =>
    match r with (if _ then _ else _) => set (relink := r) end end.
  assert (Hrl_env : ∀ w0, environ (relink w0).2 = environ w0).
  { intros w0. unfold relink. destruct (plat =? "darwin"); [|done].
    unfold mbind, py_bind, extern.
    destruct (manually_link_libraries tc mp lib (cwd w0)) as [[a|e] d1]; [|done].
    simpl. by destruct (move tc a lib d1) as [[[]|e] d2]. }
  specialize (Hrl_env (after_compile mp body v d w)).
  destruct (relink (after_compile mp body v d w)) as [[[]|e] w2]; [|discriminate].
  unfold mbind at 1, py_bind at 1, extern at 1.
  destruct (load_dynamic_ext tc (build_name w) lib (cwd w2)) as [[m|e] d3];
    [|discriminate].
  set (w3 := mk_world _ _ _ _ _ _).
  unfold mbind, py_bind, mret, py_ret.
  destruct (build_fn_cleanup (build_name w) w3) as [[[]|e] w4] eqn:Hclean;
    [|discriminate].
  intros [= <- <-]. exists lib, d, w3.
  split; [done|]. split; [done|]. split; [exact Hrl_env|]. split; [|exact Hclean].
  simpl. apply last_snoc.
Qed.

Lemma compile_failure_cleaned tc mp plat body v w e d :
  is_list_or_tuple v = true →
  compile_outcome tc mp body v w = (Raise e, d) →
  isinstance e [Exception] = true →
  removals_tolerated (build_name w) d →
  build_callback_fn tc mp plat body v w
  = (Raise e, (build_fn_cleanup (build_name w) (after_compile mp body v d w)).2) ∧
  (build_fn_cleanup (build_name w) (after_compile mp body v d w)).1 = Return () ∧
  ∀ p, cwd (build_callback_fn tc mp plat body v w).2 !! p
       = if debug_override w then d !! p
         else after_cleanup (build_name w) p (d !! p).
Proof.
  intros Hv Hc He Htol.
  rewrite (build_callback_fn_compile_raises tc mp plat body v w e d Hv Hc), He.
  set (w2 := after_compile mp body v d w).
  assert (Hdbg : debug_override w2 = debug_override w) by done.
  destruct (debug_override w) eqn:Hd.
  - rewrite (build_fn_cleanup_debug _ w2 Hdbg). done.
  - destruct (build_fn_cleanup_sweeps (build_name w) w2
                (build_name_plain w) Hdbg Htol)
      as [w3 [E [_ Hcwd]]].
    rewrite E. done.
Qed.

(** C8, counterexample: a compile step that fails leaves files with the
    prefix behind, with the debug variable unset, (1) when the removal of a
    partial artifact is refused, and (2) when what it raises does not derive
    from [Exception], in which case nothing is removed at all. *)
Lemma C8_counterexample :
  debug_override clean_world = false ∧
  build_name clean_world = "_fn_aaaaaaaaaaaaaaa" ∧
  ((build_callback_fn (failing_compiler bad_source true) "/opt/mujoco200"
      "linux" "void fun() {" (PyList []) clean_world).1 = Raise bad_source ∧
   cwd (build_callback_fn (failing_compiler bad_source true) "/opt/mujoco200"
          "linux" "void fun() {" (PyList []) clean_world).2
     !! "_fn_aaaaaaaaaaaaaaa.o" = Some (Some access_denied)) ∧
  ((build_callback_fn (failing_compiler interrupted false) "/opt/mujoco200"
      "linux" "void fun() {" (PyList []) clean_world).1 = Raise interrupted ∧
   cwd (build_callback_fn (failing_compiler interrupted false) "/opt/mujoco200"
          "linux" "void fun() {" (PyList []) clean_world).2
     !! "_fn_aaaaaaaaaaaaaaa.c" = Some None).
Proof. vm_compute. done. Qed.

(** C8, amended: when the compile step raises an exception that derives
    from [Exception], [build_callback_fn] runs [build_fn_cleanup] on the
    name of the build in the world the compiler left, and then raises the
    same exception.  If no removal of an entry with the prefix raises
    anything else than [PermissionError], then outside debug mode the
    entries with the prefix whose removal succeeds are gone, and every other
    entry is as the compiler left it. *)
Theorem C8_compile_failure_cleanup (tc : toolchain)
    (mujoco_path sys_platform function_string : string)
    (userdata_names : pyobj) (w : world) (e : exn) (d : directory) :
  is_list_or_tuple userdata_names = true →
  compile_outcome tc mujoco_path function_string userdata_names w
    = (Raise e, d) →
  isinstance e [Exception] = true →
  removals_tolerated (build_name w) d →
  build_callback_fn tc mujoco_path sys_platform function_string
    userdata_names w
  = (Raise e,
     (build_fn_cleanup (build_name w)
        (after_compile mujoco_path function_string userdata_names d w)).2) ∧
  ∀ p, cwd (build_callback_fn tc mujoco_path sys_platform function_string
              userdata_names w).2 !! p
       = if debug_override w then d !! p
         else after_cleanup (build_name w) p (d !! p).
Proof.
  intros Hv Hc He Htol.
  destruct (compile_failure_cleaned tc mujoco_path sys_platform
              function_string userdata_names w e d Hv Hc He Htol)
    as [H1 [_ H2]].
  by split.
Qed.

Lemma C8_compile_failure_cleanup_witness :
  build_callback_fn (failing_compiler bad_source false) "/opt/mujoco200"
    "linux" "void fun() {" (PyList ["my_sum"]) clean_world
  = (Raise bad_source,
     (build_fn_cleanup (build_name clean_world)
        (after_compile "/opt/mujoco200" "void fun() {" (PyList ["my_sum"])
           (compile_outcome (failing_compiler bad_source false)
              "/opt/mujoco200" "void fun() {" (PyList ["my_sum"])
              clean_world).2
           clean_world)).2) ∧
  ∀ p, cwd (build_callback_fn (failing_compiler bad_source false)
              "/opt/mujoco200" "linux" "void fun() {" (PyList ["my_sum"])
              clean_world).2 !! p
       = after_cleanup (build_name clean_world) p
           ((compile_outcome (failing_compiler bad_source false)
               "/opt/mujoco200" "void fun() {" (PyList ["my_sum"])
               clean_world).2 !! p).
Proof.
  apply (C8_compile_failure_cleanup (failing_compiler bad_source false)
           "/opt/mujoco200" "linux" "void fun() {" (PyList ["my_sum"])
           clean_world bad_source).
  - reflexivity.
  - reflexivity.
  - reflexivity.
  - apply (bool_decide_unpack _). vm_compute. exact I.
Defined.

(** C1, counterexample: with the debug variable unset, files with the
    prefix of the build are left (1) when the loader fails, as nothing is
    removed then, and (2) when the call returns the symbol but the removal
    of the loaded library is refused. *)
Lemma C1_counterexample :
  debug_override clean_world = false ∧
  build_name clean_world = "_fn_aaaaaaaaaaaaaaa" ∧
  ((build_callback_fn failing_loader "/opt/mujoco200" "linux"
      "void fun(const mjModel* m, mjData* d) {}" (PyList []) clean_world).1
     = Raise bad_library ∧
   cwd (build_callback_fn failing_loader "/opt/mujoco200" "linux"
          "void fun(const mjModel* m, mjData* d) {}" (PyList [])
          clean_world).2
     !! "_fn_aaaaaaaaaaaaaaa.so" = Some None) ∧
  ((build_callback_fn (working_toolchain true) "/opt/mujoco200" "linux"
      "void fun(const mjModel* m, mjData* d) {}" (PyList []) clean_world).1
     = Return 4096%Z ∧
   cwd (build_callback_fn (working_toolchain true) "/opt/mujoco200" "linux"
          "void fun(const mjModel* m, mjData* d) {}" (PyList [])
          clean_world).2
     !! "_fn_aaaaaaaaaaaaaaa.so" = Some (Some access_denied)).
Proof. vm_compute. done. Qed.

(** C1, amended: outside debug mode, (1) when [build_callback_fn] returns,
    [build_fn_cleanup] ran on the name of the build right after the module
    was loaded, and the only entries with the prefix that are left are
    entries whose removal was refused with a [PermissionError]; (2) when the
    compile step raises an exception that derives from [Exception], and no
    removal raises anything else than [PermissionError], the call raises
    that exception and again only entries whose removal was refused are
    left. *)
Theorem C1_cleanup_on_return_and_on_compile_failure (tc : toolchain)
    (mujoco_path sys_platform function_string : string)
    (userdata_names : pyobj) (w : world) :
  debug_override w = false →
  (∀ ptr w',
     build_callback_fn tc mujoco_path sys_platform function_string
       userdata_names w = (Return ptr, w') →
     only_refused_left (build_name w) (cwd w') ∧
     ∃ library_path w3,
       last (trace w3) = Some (EvLoad (build_name w) library_path) ∧
       build_fn_cleanup (build_name w) w3 = (Return (), w')) ∧
  (∀ e d,
     is_list_or_tuple userdata_names = true →
     compile_outcome tc mujoco_path function_string userdata_names w
       = (Raise e, d) →
     isinstance e [Exception] = true →
     removals_tolerated (build_name w) d →
     (build_callback_fn tc mujoco_path sys_platform function_string
        userdata_names w).1 = Raise e ∧
     only_refused_left (build_name w)
       (cwd (build_callback_fn tc mujoco_path sys_platform function_string
               userdata_names w).2)).
Proof.
  intros Hd. split.
  - intros ptr w' Hrun.
    destruct (build_callback_fn_returns _ _ _ _ _ _ _ _ Hrun)
      as [lib [d [w3 [_ [_ [Henv [Hlast Hclean]]]]]]].
    split; [|by exists lib, w3].
    apply (cleanup_leaves_refused (build_name w) w3 w');
      [apply build_name_plain| |done].
    unfold debug_override in *. by rewrite Henv.
  - intros e d Hv Hc He Htol.
    destruct (compile_failure_cleaned tc mujoco_path sys_platform
                function_string userdata_names w e d Hv Hc He Htol)
      as [H1 [H2 _]].
    rewrite H1. split; [done|]. simpl.
    set (w2 := after_compile _ _ _ _ _) in *.
    apply (cleanup_leaves_refused (build_name w) w2);
      [apply build_name_plain|done|].
    destruct (build_fn_cleanup (build_name w) w2) as [r w3]. simpl in *.
    by rewrite H2.
Qed.

Lemma C1_cleanup_on_return_and_on_compile_failure_witness :
  only_refused_left (build_name clean_world)
    (cwd (build_callback_fn (working_toolchain true) "/opt/mujoco200" "linux"
            "void fun(const mjModel* m, mjData* d) {}" (PyList ["my_sum"])
            clean_world).2) ∧
  only_refused_left (build_name clean_world)
    (cwd (build_callback_fn (failing_compiler bad_source true)
            "/opt/mujoco200" "linux" "void fun() {" (PyList ["my_sum"])
            clean_world).2).
Proof.
  split.
  - refine (proj1 (proj1 (C1_cleanup_on_return_and_on_compile_failure
              (working_toolchain true) "/opt/mujoco200" "linux"
              "void fun(const mjModel* m, mjData* d) {}" (PyList ["my_sum"])
              clean_world eq_refl) 4096%Z _ _)).
    vm_compute. reflexivity.
  - refine (proj2 (proj2 (C1_cleanup_on_return_and_on_compile_failure
              (failing_compiler bad_source true) "/opt/mujoco200" "linux"
              "void fun() {" (PyList ["my_sum"])
              clean_world eq_refl) bad_source _ eq_refl eq_refl eq_refl _)).
    apply (bool_decide_unpack _). vm_compute. exact I.
Defined.

(** ** The synthesized source *)

Lemma concat_lines_cons (l : string) (ls : list string) :
  concat_lines (l :: ls) = l +:+ concat_lines ls.
Proof. reflexivity. Qed.

Lemma add_defines_spec (names : list string) : ∀ source i,
  add_defines source i names
  = source +:+ concat_lines (imap (λ j name, define_line name (i + j)) names).
Proof.
  induction names as [|name names IH]; intros source i.
  - simpl. by rewrite string_app_nil_r.
  - change (add_defines source i (name :: names))
      with (add_defines (source +:+ define_line name i) (S i) names).
    rewrite IH, imap_cons, concat_lines_cons, string_app_assoc, Nat.add_0_r.
    do 3 f_equal. apply imap_ext. intros j x _. simpl. f_equal. lia.
Qed.

Lemma source_string_shape (function_string : string) (names : list string) :
  source_string function_string names
  = ("#include <mujoco.h>" +:+ nl)
    +:+ concat_lines (define_lines names)
    +:+ function_string
    +:+ (nl +:+ "uintptr_t __fun = (uintptr_t) fun;").
Proof.
  unfold source_string. rewrite add_defines_spec.
  by rewrite !string_app_assoc.
Qed.

Lemma str_in_concat_lines (l : string) (ls : list string) :
  l ∈ ls → str_in l (concat_lines ls) = true.
Proof.
  intros Hin. apply str_in_spec. induction Hin as [l ls|l l' ls Hin IH].
  - exists "", (concat_lines ls). by rewrite concat_lines_cons.
  - destruct IH as [a [b Hab]]. exists (l' +:+ a), b.
    by rewrite concat_lines_cons, Hab, string_app_assoc.
Qed.

Example source_string_two_names :
  source_string "void fun(const mjModel* m, mjData* d) { my_sum += steps; }"
    ["my_sum"; "steps"]
  = "#include <mujoco.h>" +:+ nl +:+
    "#define my_sum d->userdata[0]" +:+ nl +:+
    "#define steps d->userdata[1]" +:+ nl +:+
    "void fun(const mjModel* m, mjData* d) { my_sum += steps; }" +:+ nl +:+
    "uintptr_t __fun = (uintptr_t) fun;".
Proof. reflexivity. Qed.

Example source_string_no_names :
  source_string "void fun(const mjModel* m, mjData* d) {}" []
  = "#include <mujoco.h>" +:+ nl +:+
    "void fun(const mjModel* m, mjData* d) {}" +:+ nl +:+
    "uintptr_t __fun = (uintptr_t) fun;".
Proof. reflexivity. Qed.

(** C4: for every list of names and every function body, the text that is
    compiled is the inclusion of the MuJoCo header, then one directive per
    name, then the function body, then the line that stores the address of
    [fun] in [__fun]; there are as many directives as names, and the one at
    position [i] defines the [i]-th name as slot [i] of the user data.  The
    text is the value of a total function: nothing is raised. *)
Theorem C4_source_string_layout (function_string : string)
    (userdata_names : list string) :
  source_string function_string userdata_names
  = ("#include <mujoco.h>" +:+ nl)
    +:+ concat_lines (define_lines userdata_names)
    +:+ function_string
    +:+ (nl +:+ "uintptr_t __fun = (uintptr_t) fun;")
  ∧ length (define_lines userdata_names) = length userdata_names
  ∧ ∀ i, define_lines userdata_names !! i
         = (λ data_name,
              "#define " +:+ data_name +:+ " d->userdata[" +:+ pretty i
              +:+ "]" +:+ nl) <$> userdata_names !! i.
Proof.
  split; [apply source_string_shape|]. split.
  - apply length_imap.
  - intros i. unfold define_lines. by rewrite list_lookup_imap.
Qed.

(** ** Events are only ever added *)

Lemma trace_grows_bind {A B} (m : py world A) (f : A → py world B) :
  trace_grows m → (∀ a, trace_grows (f a)) → trace_grows (m ≫= f).
Proof.
  intros Hm Hf w. unfold mbind, py_bind. destruct (Hm w) as [r1 H1].
  destruct (m w) as [[a|e] w1]; simpl in *.
  - destruct (Hf a w1) as [r2 H2]. exists (r1 ++ r2)%list.
    by rewrite H2, H1, (assoc_L (++)).
  - by exists r1.
Qed.

Lemma trace_grows_ret {A} (a : A) : trace_grows (mret a).
Proof. intros w. exists []. simpl. by rewrite (right_id_L [] (++)). Qed.

Lemma trace_grows_raise {A} (e : exn) : trace_grows (@raise world A e).
Proof. intros w. exists []. simpl. by rewrite (right_id_L [] (++)). Qed.

Lemma trace_grows_try_except {A} (m : py world A) cs (h : exn → py world A) :
  trace_grows m → (∀ e, trace_grows (h e)) → trace_grows (try_except m cs h).
Proof.
  intros Hm Hh w. unfold try_except. destruct (Hm w) as [r1 H1].
  destruct (m w) as [[a|e] w1]; simpl in *; [by exists r1|].
  destruct (isinstance e cs); [|by exists r1].
  destruct (Hh e w1) as [r2 H2]. exists (r1 ++ r2)%list.
  by rewrite H2, H1, (assoc_L (++)).
Qed.

Lemma trace_grows_extern {A} ev (f : directory → result A * directory) :
  trace_grows (extern ev f).
Proof. intros w. unfold extern. destruct (f (cwd w)). by exists [ev]. Qed.

Lemma trace_grows_for_each {A} (xs : list A) (body : A → py world unit) :
  (∀ x, trace_grows (body x)) → trace_grows (for_each xs body).
Proof.
  intros Hb. induction xs as [|x xs IH]; simpl.
  - apply (trace_grows_ret ()).
  - apply trace_grows_bind; [apply Hb | by intros _].
Qed.

Lemma trace_grows_os_remove f : trace_grows (os_remove f).
Proof.
  intros w. unfold os_remove. exists [EvRemove f].
  by destruct (cwd w !! f) as [[e|]|].
Qed.

Lemma trace_grows_build_fn_cleanup name : trace_grows (build_fn_cleanup name).
Proof.
  unfold build_fn_cleanup. apply trace_grows_bind.
  { intros w. exists []. simpl. by rewrite (right_id_L [] (++)). }
  intros debug. destruct debug; simpl; [apply (trace_grows_ret ())|].
  apply trace_grows_bind.
  { intros w. by eexists. }
  intros fs. apply trace_grows_for_each. intros f.
  apply trace_grows_try_except; [apply trace_grows_os_remove|].
  intros e w. by eexists.
Qed.

Lemma build_callback_fn_reaches_compiler tc mp plat body v w :
  is_list_or_tuple v = true →
  ∃ rest, trace (build_callback_fn tc mp plat body v w).2
          = (trace w ++ compile_event mp body v w :: rest)%list.
Proof.
  intros Hv. unfold build_callback_fn.
  destruct (draw_build_name w) as [letters [Hdraw Hname]].
  unfold mbind at 1 2 ; unfold py_bind at 1 2. rewrite Hv.
  unfold mret at 1, py_ret at 1. rewrite Hdraw. rewrite <- Hname.
  unfold mbind at 1, py_bind at 1, try_except at 1, extern at 1.
  simpl. fold (compile_outcome tc mp body v w).
  destruct (compile_outcome tc mp body v w) as [[lib|e] d] eqn:Hc;
    fold (compile_event mp body v w); fold (after_compile mp body v d w).
  - match goal with |- context [trace (?k ?lib0 (after_compile _ _ _ _ _)).2] =>
      assert (Hk : trace_grows (k lib0)) end.
    { apply trace_grows_bind.
      - destruct (plat =? "darwin"); [|apply (trace_grows_ret ())].
        apply trace_grows_bind; [apply trace_grows_extern|].
        intros a. apply trace_grows_extern.
      - intros _. apply trace_grows_bind; [apply trace_grows_extern|].
        intros m. apply trace_grows_bind; [apply trace_grows_build_fn_cleanup|].
        intros _. apply trace_grows_ret. }
    destruct (Hk (after_compile mp body v d w)) as [rest Hrest].
    exists rest. simpl in Hrest. rewrite Hrest. simpl.
    by rewrite <- (assoc_L (++)).
  - destruct (isinstance e [Exception]).
    + destruct (trace_grows_build_fn_cleanup (build_name w)
                  (after_compile mp body v d w)) as [rest Hrest].
      exists rest. unfold mbind, py_bind, raise.
      destruct (build_fn_cleanup (build_name w) (after_compile mp body v d w))
        as [[[]|e'] w3]; simpl in *; rewrite Hrest;
        by rewrite <- (assoc_L (++)).
    + exists []. done.
Qed.

(** C3, counterexample: a list that names [my_sum] twice is not rejected.
    With a working toolchain the call returns the address of the symbol, and
    the text that went to the compiler has two directives for [my_sum]. *)
Lemma C3_counterexample :
  ¬ NoDup ["my_sum"; "my_sum"] ∧
  (build_callback_fn (working_toolchain false) "/opt/mujoco200" "linux"
     "void fun(const mjModel* m, mjData* d) { my_sum += 1; }"
     (PyList ["my_sum"; "my_sum"]) clean_world).1 = Return 4096%Z ∧
  trace (build_callback_fn (working_toolchain false) "/opt/mujoco200" "linux"
           "void fun(const mjModel* m, mjData* d) { my_sum += 1; }"
           (PyList ["my_sum"; "my_sum"]) clean_world).2 !! 0
  = Some (EvCompile "_fn_aaaaaaaaaaaaaaa"
            ("#include <mujoco.h>" +:+ nl +:+
             "#define my_sum d->userdata[0]" +:+ nl +:+
             "#define my_sum d->userdata[1]" +:+ nl +:+
             "void fun(const mjModel* m, mjData* d) { my_sum += 1; }" +:+ nl +:+
             "uintptr_t __fun = (uintptr_t) fun;")
            ["/opt/mujoco200/include"] ["/opt/mujoco200/bin"] ["mujoco200"]).
Proof.
  split; [|vm_compute; done].
  apply (bool_decide_unpack _). vm_compute. exact I.
Qed.

(** C3, amended: a list or tuple of names is never rejected for holding a
    name twice.  Whatever the names are, [build_callback_fn] gets as far as
    the compiler, and the text it hands over has a directive for every
    entry of the list, each occurrence of a repeated name with its own slot
    index. *)
Theorem C3_duplicate_names_reach_compiler (tc : toolchain)
    (mujoco_path sys_platform function_string : string)
    (names : list string) (w : world) :
  (∃ rest,
     trace (build_callback_fn tc mujoco_path sys_platform function_string
              (PyList names) w).2
     = (trace w ++
        EvCompile (build_name w) (source_string function_string names)
          [path_join mujoco_path "include"] [path_join mujoco_path "bin"]
          ["mujoco200"] :: rest)%list) ∧
  (∃ rest,
     trace (build_callback_fn tc mujoco_path sys_platform function_string
              (PyTuple names) w).2
     = (trace w ++
        EvCompile (build_name w) (source_string function_string names)
          [path_join mujoco_path "include"] [path_join mujoco_path "bin"]
          ["mujoco200"] :: rest)%list) ∧
  ∀ i data_name,
    names !! i = Some data_name →
    str_in (define_line data_name i) (source_string function_string names)
    = true.
Proof.
  split; [|split].
  - exact (build_callback_fn_reaches_compiler tc mujoco_path sys_platform
             function_string (PyList names) w eq_refl).
  - exact (build_callback_fn_reaches_compiler tc mujoco_path sys_platform
             function_string (PyTuple names) w eq_refl).
  - intros i data_name Hi. rewrite source_string_shape.
    apply str_in_spec.
    assert (Hin : define_line data_name i ∈ define_lines names).
    { apply list_elem_of_lookup. exists i. unfold define_lines.
      by rewrite list_lookup_imap, Hi. }
    apply str_in_concat_lines, str_in_spec in Hin as [a [b Hab]].
    exists (("#include <mujoco.h>" +:+ nl) +:+ a),
           (b +:+ function_string +:+ nl +:+ "uintptr_t __fun = (uintptr_t) fun;").
    rewrite Hab. by rewrite !string_app_assoc.
Qed.

(** ** Warnings *)

Lemma warnings_ignored (ws : list string) :
  for_each ws emit_warning (mk_cymj user_warning_ignore_exception)
  = (Return (), mk_cymj user_warning_ignore_exception).
Proof.
  induction ws as [|warn ws IH]; [done|].
  simpl. unfold mbind, py_bind. simpl. exact IH.
Qed.

(** Outside a scope, with the raising callback in the slot, a warning
    raises; a scope around the same report swallows it and puts the raising
    callback back. *)
Example warning_outside_and_inside_scope :
  let raising := mk_cymj (user_warning_raise_exception (λ _, true)) in
  emit_warning "Pre-allocated constraint buffer is full" raising
  = (Raise (mk_exn MujocoException
              ("Pre-allocated constraint buffer is full"
               +:+ "Increase njmax in mujoco XML")), raising) ∧
  with_ignore_mujoco_warnings
    (emit_warning "Pre-allocated constraint buffer is full") raising
  = (Return (), raising).
Proof. split; reflexivity. Qed.

(** C5: whatever callback [T] is in the slot when the statement
    [with ignore_mujoco_warnings(): body] starts, the body runs with
    [user_warning_ignore_exception] in the slot, the outcome of the
    statement is the outcome of the body, be it a value or an exception,
    and afterwards the slot holds [T] again; any number of warnings reported
    during the body are swallowed. *)
Theorem C5_scope_restores_callback {A} (body : py cymj_state A)
    (s : cymj_state) :
  warning_callback (scope_enter (mk_scope None) s).2
    = user_warning_ignore_exception ∧
  (with_ignore_mujoco_warnings body s).1
    = (body (mk_cymj user_warning_ignore_exception)).1 ∧
  warning_callback (with_ignore_mujoco_warnings body s).2
    = warning_callback s ∧
  ∀ ws, with_ignore_mujoco_warnings (for_each ws emit_warning) s
        = (Return (), s).
Proof.
  split; [done|].
  assert (H : ∀ B (b : py cymj_state B),
            with_ignore_mujoco_warnings b s
            = ((b (mk_cymj user_warning_ignore_exception)).1, s)).
  { intros B b. unfold with_ignore_mujoco_warnings, scope_enter.
    unfold get_warning_callback, set_warning_callback. py_unfold. simpl.
    destruct (b _) as [r s2]. by destruct s. }
  split; [by rewrite H|]. split; [by rewrite H|].
  intros ws. by rewrite H, warnings_ignored.
Qed.

(** A warning with two patterns in it gets the hint of the rule that comes
    first in the list, wherever the patterns stand in the text. *)
Example first_rule_wins :
  user_warning_raise_exception (λ _, true)
    "Unknown warning type. Pre-allocated contact buffer is full."
  = Raise (mk_exn MujocoException
             ("Unknown warning type. Pre-allocated contact buffer is full."
              +:+ "Increase njconmax in mujoco XML")).
Proof. reflexivity. Qed.

Example unknown_warning_raises :
  user_warning_raise_exception (λ _, true) "Inertia matrix is too close to singular"
  = Raise (mk_exn MujocoException
             "Got MuJoCo Warning: Inertia matrix is too close to singular").
Proof. reflexivity. Qed.

(** C6: [user_warning_raise_exception] raises on every input.  When the
    bytes decode, it raises a [MujocoException] whose message is the one of
    the ordered rule list: the warning followed by the hint of the first
    rule whose pattern occurs in it, or, when no pattern occurs, the warning
    wrapped in the generic text.  In both cases the message contains the
    warning.  (Bytes that do not decode raise [UnicodeDecodeError].) *)
Theorem C6_raising_translator_always_raises (utf8_valid : string → bool)
    (warn_bytes : string) :
  user_warning_raise_exception utf8_valid warn_bytes
  = Raise (if utf8_valid warn_bytes
           then mk_exn MujocoException (spec_message warn_bytes)
           else mk_exn UnicodeDecodeError "'utf-8' codec can't decode bytes") ∧
  str_in warn_bytes (spec_message warn_bytes) = true ∧
  match find (λ r, str_in r.1 warn_bytes) warning_rules with
  | Some r => spec_message warn_bytes = warn_bytes +:+ r.2 ∧
              str_in r.2 (spec_message warn_bytes) = true
  | None => spec_message warn_bytes = "Got MuJoCo Warning: " +:+ warn_bytes
  end.
Proof.
  split; [|split].
  - unfold user_warning_raise_exception, decode, spec_message, warning_rules.
    destruct (utf8_valid warn_bytes); [|done]. simpl.
    by repeat destruct (str_in _ warn_bytes).
  - unfold spec_message.
    destruct (find _ warning_rules); [apply str_in_app_l | apply str_in_app_r].
  - unfold spec_message.
    destruct (find _ warning_rules); [|done].
    split; [done | apply str_in_app_r].
Qed.

(** ** The attempts to build the extension module *)

Lemma timeout_expired_is_not_retried (msg : string) :
  isinstance (mk_exn TimeoutExpired msg) retried = false.
Proof. reflexivity. Qed.

Lemma failed_attempt_is_retried module_dir env path attempt rest t e :
  check_call_result (build_step (env attempt)) = Raise e →
  isinstance e retried = true →
  attempts_loop module_dir env path (attempt :: rest) t
  = attempts_loop module_dir env path rest
      (t ++ [EvCheckCall ["python"; path] 150; EvRemoveBuild])%list.
Proof.
  intros Hcall He.
  change (attempts_loop module_dir env path (attempt :: rest) t) with
    ((r ← try_except (Some <$> attempt_body module_dir env path attempt)
            retried (λ _, remove_mujoco_build;; mret None);
      match r with
      | Some cymj => mret cymj
      | None => attempts_loop module_dir env path rest
      end) t).
  unfold attempt_body, check_call, remove_mujoco_build, build_log.
  py_unfold. rewrite Hcall, He. simpl. by rewrite <- (assoc_L (++)).
Qed.

(** C2, the code at the failing input: when the build step times out,
    [check_call] raises [subprocess.TimeoutExpired], which is none of the
    classes the loop catches; the exception leaves
    [compile_with_multiple_attempts] during the first pass, after one run
    of the build step and without any cleanup. *)
Theorem C2_timeout_escapes_first_attempt (module_dir : string)
    (env : nat → attempt_env) (t : list build_event) :
  (∀ attempt, build_step (env attempt) = TimedOut) →
  compile_with_multiple_attempts module_dir env t
  = (Raise (mk_exn TimeoutExpired "timed out after 150 seconds"),
     (t ++ [EvCheckCall
              ["python"; path_join module_dir "compile_mujoco.py"] 150])%list).
Proof.
  intros Hout. unfold compile_with_multiple_attempts. simpl seq.
  unfold attempts_loop, attempt_body, check_call. py_unfold.
  rewrite (Hout 0). reflexivity.
Qed.

Lemma C2_timeout_escapes_first_attempt_witness :
  compile_with_multiple_attempts "/site-packages/mujoco_py" always_times_out []
  = (Raise (mk_exn TimeoutExpired "timed out after 150 seconds"),
     [EvCheckCall ["python"; "/site-packages/mujoco_py/compile_mujoco.py"] 150]).
Proof.
  exact (C2_timeout_escapes_first_attempt "/site-packages/mujoco_py"
           always_times_out [] (λ _, eq_refl)).
Defined.

(** What the loop does with the class it does catch: three runs, a cleanup
    after each, then the final exception. *)
Lemma builtin_timeout_error_is_retried (module_dir : string)
    (t : list build_event) :
  compile_with_multiple_attempts module_dir always_timeout_error t
  = (Raise (mk_exn Exception "Failed to compile mujoco_py."),
     (t ++ [EvCheckCall ["python"; path_join module_dir "compile_mujoco.py"] 150;
            EvRemoveBuild;
            EvCheckCall ["python"; path_join module_dir "compile_mujoco.py"] 150;
            EvRemoveBuild;
            EvCheckCall ["python"; path_join module_dir "compile_mujoco.py"] 150;
            EvRemoveBuild])%list).
Proof.
  unfold compile_with_multiple_attempts. simpl seq.
  do 3 (erewrite failed_attempt_is_retried; [|reflexivity|reflexivity]).
  simpl. unfold raise. by rewrite <- !(assoc_L (++)).
Qed.

(** C7: when the build step fails in the first two passes with an
    exception of a class that the loop catches, and in the third pass the
    build step succeeds, exactly one library is found and loading it gives
    [cymj], then [compile_with_multiple_attempts] returns [cymj]; the build
    step ran three times, and the build was removed twice, once after the
    first run and once after the second. *)
Theorem C7_two_failures_then_success (module_dir : string)
    (env : nat → attempt_env) (t : list build_event) (e0 e1 : exn)
    (cext_so_path : string) (cymj : ext_module) :
  check_call_result (build_step (env 0)) = Raise e0 →
  isinstance e0 retried = true →
  check_call_result (build_step (env 1)) = Raise e1 →
  isinstance e1 retried = true →
  build_step (env 2) = ExitZero →
  so_files (env 2) = [cext_so_path] →
  load_step (env 2) "cymj" cext_so_path = Return cymj →
  compile_with_multiple_attempts module_dir env t
  = (Return cymj,
     (t ++ [EvCheckCall ["python"; path_join module_dir "compile_mujoco.py"] 150;
            EvRemoveBuild;
            EvCheckCall ["python"; path_join module_dir "compile_mujoco.py"] 150;
            EvRemoveBuild;
            EvCheckCall ["python"; path_join module_dir "compile_mujoco.py"] 150;
            EvGlobSo (path_join (path_join module_dir "generated") "*.so");
            EvLoadExt "cymj" cext_so_path])%list).
Proof.
  intros H0 He0 H1 He1 H2 Hso Hload.
  unfold compile_with_multiple_attempts. simpl seq.
  rewrite (failed_attempt_is_retried _ _ _ 0 _ _ e0 H0 He0).
  rewrite (failed_attempt_is_retried _ _ _ 1 _ _ e1 H1 He1).
  simpl. unfold attempt_body, check_call, glob_so, load_cymj. py_unfold.
  rewrite H2, Hso. simpl. rewrite Hload. simpl.
  by rewrite <- !(assoc_L (++)).
Qed.

Lemma C7_two_failures_then_success_witness :
  compile_with_multiple_attempts "/site-packages/mujoco_py" fails_twice []
  = (Return (mk_ext_module "cymj" "/site-packages/mujoco_py/generated/cymj.so"),
     [EvCheckCall ["python"; "/site-packages/mujoco_py/compile_mujoco.py"] 150;
      EvRemoveBuild;
      EvCheckCall ["python"; "/site-packages/mujoco_py/compile_mujoco.py"] 150;
      EvRemoveBuild;
      EvCheckCall ["python"; "/site-packages/mujoco_py/compile_mujoco.py"] 150;
      EvGlobSo "/site-packages/mujoco_py/generated/*.so";
      EvLoadExt "cymj" "/site-packages/mujoco_py/generated/cymj.so"]).
Proof.
  exact (C7_two_failures_then_success "/site-packages/mujoco_py" fails_twice []
           (mk_exn CalledProcessError "returned non-zero exit status")
           (mk_exn CalledProcessError "returned non-zero exit status")
           "/site-packages/mujoco_py/generated/cymj.so"
           (mk_ext_module "cymj" "/site-packages/mujoco_py/generated/cymj.so")
           eq_refl eq_refl eq_refl eq_refl eq_refl eq_refl eq_refl).
Defined.

Lemma C3_duplicate_names_reach_compiler_witness :
  str_in (define_line "my_sum" 1)
    (source_string "void fun(const mjModel* m, mjData* d) { my_sum += 1; }"
       ["my_sum"; "my_sum"]) = true.
Proof.
  exact (proj2 (proj2 (C3_duplicate_names_reach_compiler
           (working_toolchain false) "/opt/mujoco200" "linux"
           "void fun(const mjModel* m, mjData* d) { my_sum += 1; }"
           ["my_sum"; "my_sum"] clean_world)) 1 "my_sum" eq_refl).
Defined.

(** ** Further properties of the cleanup *)

(** One pass of the loop changes the directory by at most the removal of
    its own entry, and only if the removal of that entry succeeds; it never
    touches the environment. *)
Lemma remove_or_report_effect f w :
  environ (remove_or_report f w).2 = environ w ∧
  (cwd (remove_or_report f w).2 = cwd w ∨
   (cwd w !! f = Some None ∧ cwd (remove_or_report f w).2 = delete f (cwd w))).
Proof.
  unfold remove_or_report, try_except, os_remove.
  destruct (cwd w !! f) as [[e|]|]; simpl.
  - destruct (isinstance e [PermissionError]); simpl; auto.
  - split; [done|]. by right.
  - auto.
Qed.

Lemma cleanup_loop_effect fs : ∀ w,
  environ (for_each fs remove_or_report w).2 = environ w ∧
  ∀ p, cwd (for_each fs remove_or_report w).2 !! p = cwd w !! p ∨
       (p ∈ fs ∧ cwd w !! p = Some None ∧
        cwd (for_each fs remove_or_report w).2 !! p = None).
Proof.
  induction fs as [|f fs IH]; intros w; [by split; [|left]|].
  simpl for_each. unfold mbind, py_bind.
  destruct (remove_or_report_effect f w) as [Henv Hcwd].
  destruct (remove_or_report f w) as [[[]|e] w1]; simpl in *.
  - destruct (IH w1) as [Henv1 Hcwd1]. split; [congruence|]. intros p.
    destruct (Hcwd1 p) as [Hsame|[Hin [Hwas Hgone]]].
    + rewrite Hsame. destruct Hcwd as [->|[Hf ->]]; [by left|].
      destruct (decide (p = f)) as [->|Hne].
      * right. rewrite lookup_delete_eq. split; [left|done].
      * left. by rewrite lookup_delete_ne.
    + right. split; [by right|]. split; [|done].
      destruct Hcwd as [<-|[Hf Hd]]; [done|]. rewrite Hd in Hwas.
      destruct (decide (p = f)) as [->|Hne]; [by rewrite lookup_delete_eq in Hwas|].
      by rewrite lookup_delete_ne in Hwas.
  - split; [done|]. intros p. destruct Hcwd as [->|[Hf ->]]; [by left|].
    destruct (decide (p = f)) as [->|Hne].
    + right. rewrite lookup_delete_eq. split; [left|done].
    + left. by rewrite lookup_delete_ne.
Qed.

Lemma build_fn_cleanup_eq name w :
  build_fn_cleanup name w
  = if debug_override w then (Return (), w)
    else for_each
           (if plain_name name
            then (map_to_list
                    (filter (λ kv, String.prefix name kv.1 = true) (cwd w))).*1
            else glob_other w (name +:+ "*") (cwd w))
           remove_or_report (glob_star name w).2.
Proof.
  unfold build_fn_cleanup, environ_get_truthy, debug_override, glob_star.
  unfold mbind, py_bind. by destruct (environ_truthy _ (environ w)).
Qed.

(** X1: [build_fn_cleanup] only ever deletes.  For every name, whether it
    returns or raises, the environment is as before and every entry of the
    working directory is either exactly as before or was an entry whose
    removal succeeds and is gone now: nothing appears, nothing changes. *)
Theorem X1_cleanup_only_deletes (name : string) (w : world) :
  environ (build_fn_cleanup name w).2 = environ w ∧
  ∀ p, cwd (build_fn_cleanup name w).2 !! p = cwd w !! p ∨
       (cwd w !! p = Some None ∧ cwd (build_fn_cleanup name w).2 !! p = None).
Proof.
  rewrite build_fn_cleanup_eq.
  destruct (debug_override w); [split; [done | intros p; by left]|].
  match goal with |- context [for_each ?l _ ?w1] =>
    destruct (cleanup_loop_effect l w1) as [Henv Hcwd] end.
  split; [exact Henv|]. intros p.
  destruct (Hcwd p) as [?|[_ [? ?]]]; [by left | by right].
Qed.

(** X2: for a plain name, the entries whose name does not start with it
    are never touched by [build_fn_cleanup], even when the cleanup stops on
    an error. *)
Theorem X2_cleanup_spares_other_names (name : string) (w : world) (p : string) :
  plain_name name = true →
  String.prefix name p = false →
  cwd (build_fn_cleanup name w).2 !! p = cwd w !! p.
Proof.
  intros Hplain Hp. rewrite build_fn_cleanup_eq, Hplain.
  destruct (debug_override w); [done|].
  match goal with |- context [for_each ?l _ ?w1] =>
    destruct (cleanup_loop_effect l w1) as [_ Hcwd] end.
  destruct (Hcwd p) as [?|[Hin _]]; [done|].
  apply elem_of_glob in Hin as [r [_ Hp']]. congruence.
Qed.

Lemma X2_cleanup_spares_other_names_witness :
  cwd (build_fn_cleanup "_fn_aaaaaaaaaaaaaaa" world_with_subdirectory).2
    !! "model.xml"
  = cwd world_with_subdirectory !! "model.xml".
Proof.
  exact (X2_cleanup_spares_other_names "_fn_aaaaaaaaaaaaaaa"
           world_with_subdirectory "model.xml" eq_refl eq_refl).
Defined.

Lemma remove_or_report_raises f w e w1 :
  remove_or_report f w = (Raise e, w1) →
  isinstance e [PermissionError] = false.
Proof.
  unfold remove_or_report, try_except, os_remove.
  destruct (cwd w !! f) as [[e0|]|]; simpl.
  - destruct (isinstance e0 [PermissionError]) eqn:He0; [discriminate|].
    by intros [= <- _].
  - discriminate.
  - by intros [= <- _].
Qed.

Lemma cleanup_loop_raises fs : ∀ w e w',
  for_each fs remove_or_report w = (Raise e, w') →
  isinstance e [PermissionError] = false.
Proof.
  induction fs as [|f fs IH]; intros w e w'; [discriminate|].
  simpl for_each. unfold mbind, py_bind.
  destruct (remove_or_report f w) as [[[]|e1] w1] eqn:E1.
  - apply IH.
  - intros [= <- _]. by apply (remove_or_report_raises f w e1 w1).
Qed.

(** X3: a [PermissionError] never leaves [build_fn_cleanup]: whatever the
    name, the world and what [glob] answers, an exception that it raises is
    of another class. *)
Theorem X3_permission_error_never_escapes (name : string) (w : world)
    (e : exn) :
  (build_fn_cleanup name w).1 = Raise e →
  isinstance e [PermissionError] = false.
Proof.
  rewrite build_fn_cleanup_eq.
  destruct (debug_override w); [discriminate|].
  match goal with |- context [for_each ?l _ ?w1] =>
    pose proof (cleanup_loop_raises l w1 e) as Hloop;
    destruct (for_each l _ w1) as [r w'] end.
  simpl. intros ->. by apply (Hloop w').
Qed.

Lemma X3_permission_error_never_escapes_witness :
  (build_fn_cleanup "_fn_aaaaaaaaaaaaaaa" world_with_subdirectory).1
    = Raise not_a_file ∧
  isinstance not_a_file [PermissionError] = false.
Proof.
  split; [reflexivity|].
  exact (X3_permission_error_never_escapes "_fn_aaaaaaaaaaaaaaa"
           world_with_subdirectory not_a_file eq_refl).
Defined.

(** X4: cleaning twice is cleaning once.  After a cleanup that got past
    every removal, a second cleanup with the same name returns normally and
    leaves the working directory as the first one left it. *)
Theorem X4_cleanup_idempotent (name : string) (w : world) :
  plain_name name = true →
  debug_override w = false →
  removals_tolerated name (cwd w) →
  (build_fn_cleanup name (build_fn_cleanup name w).2).1 = Return () ∧
  cwd (build_fn_cleanup name (build_fn_cleanup name w).2).2
    = cwd (build_fn_cleanup name w).2.
Proof.
  intros Hplain Hd Htol.
  destruct (build_fn_cleanup_sweeps name w Hplain Hd Htol)
    as [w1 [E1 [Henv1 Hcwd1]]].
  rewrite E1. simpl.
  assert (Hd1 : debug_override w1 = false).
  { unfold debug_override in *. by rewrite Henv1. }
  assert (Htol1 : removals_tolerated name (cwd w1)).
  { intros p r Hlk Hp. rewrite Hcwd1 in Hlk. apply (Htol p r); [|done].
    unfold after_cleanup in Hlk.
    destruct (cwd w !! p) as [[e|]|]; [done| |done]. by rewrite Hp in Hlk. }
  destruct (build_fn_cleanup_sweeps name w1 Hplain Hd1 Htol1)
    as [w2 [E2 [_ Hcwd2]]].
  rewrite E2. split; [done|]. simpl. apply map_eq. intros p.
  rewrite Hcwd2, Hcwd1. unfold after_cleanup.
  destruct (cwd w !! p) as [[e|]|]; [done| |done].
  by destruct (String.prefix name p).
Qed.

Lemma X4_cleanup_idempotent_witness :
  (build_fn_cleanup "_fn_aaaaaaaaaaaaaaa"
     (build_fn_cleanup "_fn_aaaaaaaaaaaaaaa" sample_world).2).1 = Return () ∧
  cwd (build_fn_cleanup "_fn_aaaaaaaaaaaaaaa"
         (build_fn_cleanup "_fn_aaaaaaaaaaaaaaa" sample_world).2).2
    = cwd (build_fn_cleanup "_fn_aaaaaaaaaaaaaaa" sample_world).2.
Proof.
  apply (X4_cleanup_idempotent "_fn_aaaaaaaaaaaaaaa" sample_world);
    [reflexivity | reflexivity |].
  apply (bool_decide_unpack _). vm_compute. exact I.
Defined.





(** ** Further properties of the callback build *)

Lemma join_choices_letters n : ∀ w,
  ∃ letters,
    (join_choices ascii_lowercase n w).1 = Return letters ∧
    ∀ i, String.get i letters
         = if decide (i < n)
           then String.get (rng w (rng_pos w + i) `mod` 26) ascii_lowercase
           else None.
Proof.
  induction n as [|n IH]; intros w.
  - exists "". split; [done|]. by intros [|i].
  - destruct (choice_ascii_lowercase w) as [c [Hc _]].
    assert (Hget : String.get (rng w (rng_pos w) `mod` 26) ascii_lowercase
                   = Some c).
    { unfold choice in Hc.
      change (String.length ascii_lowercase) with 26 in Hc.
      destruct (String.get _ ascii_lowercase); [|discriminate].
      by injection Hc as ->. }
    set (w1 := mk_world (glob_other w) (environ w) (cwd w) (rng w)
                 (S (rng_pos w)) (trace w)) in *.
    destruct (IH w1) as [rest [Hrest Hletters]].
    destruct (join_choices_ascii_lowercase n w1) as [rest' [E _]].
    rewrite E in Hrest. injection Hrest as ->.
    exists (String c rest). split.
    + simpl join_choices. unfold mbind, py_bind, mret, py_ret.
      by rewrite Hc, E.
    + intros [|i].
      * rewrite Nat.add_0_r, Hget.
        destruct (decide (0 < S n)); [done|lia].
      * change (String.get (S i) (String c rest)) with (String.get i rest).
        rewrite Hletters. unfold w1. simpl rng_pos. simpl rng.
        rewrite Nat.add_succ_r.
        destruct (decide (i < n)), (decide (S i < S n)); (done || lia).
Qed.

(** X6: the name of a build is [_fn_] followed by exactly fifteen
    characters, the [i]-th of which is the letter of [ascii_lowercase] that
    the [i]-th draw of the random generator picks; it has nineteen
    characters. *)
Theorem X6_build_name_shape (w : world) :
  ∃ letters,
    build_name w = "_fn_" +:+ letters ∧
    String.length (build_name w) = 19 ∧
    ∀ i, String.get i letters
         = if decide (i < 15)
           then String.get (rng w (rng_pos w + i) `mod` 26) ascii_lowercase
           else None.
Proof.
  destruct (join_choices_letters 15 w) as [letters [E Hletters]].
  exists letters. assert (Hname : build_name w = "_fn_" +:+ letters).
  { unfold build_name. by rewrite E. }
  split; [done|]. split; [|done].
  rewrite Hname.
  assert (Hlen : ∀ s n, (∀ i, is_Some (String.get i s) ↔ i < n) →
                 String.length s = n).
  { induction s as [|c s IHs]; intros n Hs.
    - destruct n; [done|]. exfalso.
      destruct (proj2 (Hs 0)) as [x Hx]; [lia|discriminate].
    - destruct n as [|n].
      { exfalso. assert (0 < 0) by (apply Hs; by eexists). lia. }
      simpl. f_equal. apply IHs. intros i. specialize (Hs (S i)).
      simpl in Hs. rewrite Hs. lia. }
  change (S (S (S (S (String.length letters)))) = 19). do 4 f_equal.
  apply Hlen. intros i. rewrite Hletters.
  destruct (decide (i < 15)) as [Hi|Hi].
  - split; [done|]. intros _.
    destruct (get_ascii_lowercase (rng w (rng_pos w + i) `mod` 26))
      as [c [Hc _]]; [by apply Nat.mod_upper_bound|].
    rewrite Hc. by eexists.
  - split; [by intros [? ?]|done].
Qed.

Lemma build_callback_fn_compile_returns tc mp plat body v w lib d :
  is_list_or_tuple v = true →
  compile_outcome tc mp body v w = (Return lib, d) →
  build_callback_fn tc mp plat body v w
  = ((if String.eqb plat "darwin" then
        fixed_library_path ←
          extern (EvRelink mp lib) (manually_link_libraries tc mp lib);
        extern (EvMove fixed_library_path lib) (move tc fixed_library_path lib)
      else mret ());;
     module ← extern (EvLoad (build_name w) lib)
                (load_dynamic_ext tc (build_name w) lib);
     build_fn_cleanup (build_name w);;
     mret (lib_fun module)) (after_compile mp body v d w).
Proof.
  intros Hv Hc. unfold build_callback_fn.
  destruct (draw_build_name w) as [letters [Hdraw Hname]].
  unfold mbind at 1 2 ; unfold py_bind at 1 2. rewrite Hv.
  unfold mret at 1, py_ret at 1. rewrite Hdraw. rewrite <- Hname.
  unfold mbind at 1, py_bind at 1, try_except at 1, extern at 1.
  unfold compile_outcome in Hc. simpl. rewrite Hc. reflexivity.
Qed.

(** X7: on a platform other than darwin, a build whose compile step and
    loader succeed never calls the relinker or [move]: the loader is called
    on the library of the compiler in the directory the compiler left, the
    cleanup runs in the world right after the load, and when the cleanup
    returns the result is the symbol [__fun] of the loaded module. *)
Theorem X7_build_without_relink (tc : toolchain)
    (mujoco_path sys_platform function_string : string)
    (userdata_names : pyobj) (w : world)
    (library_path : string) (d d' : directory) (module : ffi_module) :
  is_list_or_tuple userdata_names = true →
  String.eqb sys_platform "darwin" = false →
  compile_outcome tc mujoco_path function_string userdata_names w
    = (Return library_path, d) →
  load_dynamic_ext tc (build_name w) library_path d = (Return module, d') →
  build_callback_fn tc mujoco_path sys_platform function_string
    userdata_names w
  = ((λ _, lib_fun module) <$> build_fn_cleanup (build_name w))
      (after_load mujoco_path function_string userdata_names library_path
         d' w).
Proof.
  intros Hv Hplat Hc Hl.
  rewrite (build_callback_fn_compile_returns _ _ _ _ _ _ _ _ Hv Hc), Hplat.
  unfold mbind at 1 2, py_bind at 1 2, mret at 1, py_ret at 1, extern.
  simpl. rewrite Hl. unfold after_load, compile_event.
  rewrite <- (assoc_L (++)). simpl.
  unfold fmap, py_fmap, mbind, py_bind, mret, py_ret.
  by destruct (build_fn_cleanup _ _) as [[[]|e] w4].
Qed.

Lemma X7_build_without_relink_witness :
  build_callback_fn (working_toolchain false) "/opt/mujoco200" "linux"
    "void fun(const mjModel* m, mjData* d) {}" (PyList ["my_sum"]) clean_world
  = ((λ _, 4096%Z) <$> build_fn_cleanup (build_name clean_world))
      (after_load "/opt/mujoco200" "void fun(const mjModel* m, mjData* d) {}"
         (PyList ["my_sum"]) "./_fn_aaaaaaaaaaaaaaa.so"
         (<["_fn_aaaaaaaaaaaaaaa.so" := None]>
            (<["_fn_aaaaaaaaaaaaaaa.c" := None]> (cwd clean_world)))
         clean_world).
Proof.
  exact (X7_build_without_relink (working_toolchain false) "/opt/mujoco200"
           "linux" "void fun(const mjModel* m, mjData* d) {}"
           (PyList ["my_sum"]) clean_world "./_fn_aaaaaaaaaaaaaaa.so"
           _ _ (mk_ffi_module 4096) eq_refl eq_refl eq_refl eq_refl).
Defined.

(** X8: a failure of the loader is not followed by a cleanup.  On a
    platform other than darwin, when the loader raises, [build_callback_fn]
    raises the same exception and ends in the world right after the load:
    the files of the build are where the compiler and the loader left
    them, in debug mode or not. *)
Theorem X8_loader_failure_skips_cleanup (tc : toolchain)
    (mujoco_path sys_platform function_string : string)
    (userdata_names : pyobj) (w : world)
    (library_path : string) (d d' : directory) (e : exn) :
  is_list_or_tuple userdata_names = true →
  String.eqb sys_platform "darwin" = false →
  compile_outcome tc mujoco_path function_string userdata_names w
    = (Return library_path, d) →
  load_dynamic_ext tc (build_name w) library_path d = (Raise e, d') →
  build_callback_fn tc mujoco_path sys_platform function_string
    userdata_names w
  = (Raise e,
     after_load mujoco_path function_string userdata_names library_path
       d' w).
Proof.
  intros Hv Hplat Hc Hl.
  rewrite (build_callback_fn_compile_returns _ _ _ _ _ _ _ _ Hv Hc), Hplat.
  unfold mbind at 1 2, py_bind at 1 2, mret at 1, py_ret at 1, extern.
  simpl. rewrite Hl. unfold after_load, compile_event.
  by rewrite <- (assoc_L (++)).
Qed.

Lemma X8_loader_failure_skips_cleanup_witness :
  build_callback_fn failing_loader "/opt/mujoco200" "linux"
    "void fun(const mjModel* m, mjData* d) {}" (PyList ["my_sum"]) clean_world
  = (Raise bad_library,
     after_load "/opt/mujoco200" "void fun(const mjModel* m, mjData* d) {}"
       (PyList ["my_sum"]) "./_fn_aaaaaaaaaaaaaaa.so"
       (<["_fn_aaaaaaaaaaaaaaa.so" := None]>
          (<["_fn_aaaaaaaaaaaaaaa.c" := None]> (cwd clean_world)))
       clean_world).
Proof.
  exact (X8_loader_failure_skips_cleanup failing_loader "/opt/mujoco200"
           "linux" "void fun(const mjModel* m, mjData* d) {}"
           (PyList ["my_sum"]) clean_world "./_fn_aaaaaaaaaaaaaaa.so"
           _ _ bad_library eq_refl eq_refl eq_refl eq_refl).
Defined.

(** X9: on darwin the library is relinked before it is loaded.  When the
    compile step, the relinker, [move] and the loader succeed, the events
    are, in this order: compile, relink of the compiled library, move of
    the relinked library over the compiled one, load of the library under
    its original path; then the cleanup runs, and the result is the symbol
    of the loaded module. *)
Theorem X9_darwin_relinks_then_loads (tc : toolchain)
    (mujoco_path function_string : string)
    (userdata_names : pyobj) (w : world)
    (library_path fixed_library_path : string) (d d1 d2 d3 : directory)
    (module : ffi_module) :
  is_list_or_tuple userdata_names = true →
  compile_outcome tc mujoco_path function_string userdata_names w
    = (Return library_path, d) →
  manually_link_libraries tc mujoco_path library_path d
    = (Return fixed_library_path, d1) →
  move tc fixed_library_path library_path d1 = (Return (), d2) →
  load_dynamic_ext tc (build_name w) library_path d2 = (Return module, d3) →
  build_callback_fn tc mujoco_path "darwin" function_string userdata_names w
  = ((λ _, lib_fun module) <$> build_fn_cleanup (build_name w))
      (after_relinked_load mujoco_path function_string userdata_names
         library_path fixed_library_path d3 w).
Proof.
  intros Hv Hc Hr Hm Hl.
  rewrite (build_callback_fn_compile_returns _ _ _ _ _ _ _ _ Hv Hc).
  change (String.eqb "darwin" "darwin") with true. cbv iota.
  unfold mbind, py_bind, extern.
  simpl. rewrite Hr. simpl. rewrite Hm. simpl. rewrite Hl.
  unfold after_relinked_load, compile_event.
  rewrite <- !(assoc_L (++)). simpl.
  unfold fmap, py_fmap, mbind, py_bind, mret, py_ret.
  by destruct (build_fn_cleanup _ _) as [[[]|e] w4].
Qed.

Lemma X9_darwin_relinks_then_loads_witness :
  build_callback_fn (working_toolchain false) "/opt/mujoco200" "darwin"
    "void fun(const mjModel* m, mjData* d) {}" (PyList ["my_sum"]) clean_world
  = ((λ _, 4096%Z) <$> build_fn_cleanup (build_name clean_world))
      (after_relinked_load "/opt/mujoco200"
         "void fun(const mjModel* m, mjData* d) {}" (PyList ["my_sum"])
         "./_fn_aaaaaaaaaaaaaaa.so" "./_fn_aaaaaaaaaaaaaaa.so.fixed"
         (<["_fn_aaaaaaaaaaaaaaa.so" := None]>
            (<["_fn_aaaaaaaaaaaaaaa.c" := None]> (cwd clean_world)))
         clean_world).
Proof.
  exact (X9_darwin_relinks_then_loads (working_toolchain false)
           "/opt/mujoco200" "void fun(const mjModel* m, mjData* d) {}"
           (PyList ["my_sum"]) clean_world "./_fn_aaaaaaaaaaaaaaa.so"
           "./_fn_aaaaaaaaaaaaaaa.so.fixed" _ _ _ _ (mk_ffi_module 4096)
           eq_refl eq_refl eq_refl eq_refl eq_refl).
Defined.

(** X10: on darwin a failure of the relinker ends the build at once: the
    same exception is raised, and there is no move, no load and no cleanup
    after the relink. *)
Theorem X10_darwin_relink_failure (tc : toolchain)
    (mujoco_path function_string : string)
    (userdata_names : pyobj) (w : world)
    (library_path : string) (d d1 : directory) (e : exn) :
  is_list_or_tuple userdata_names = true →
  compile_outcome tc mujoco_path function_string userdata_names w
    = (Return library_path, d) →
  manually_link_libraries tc mujoco_path library_path d = (Raise e, d1) →
  build_callback_fn tc mujoco_path "darwin" function_string userdata_names w
  = (Raise e,
     mk_world (glob_other w) (environ w) d1 (rng w) (rng_pos w + 15)
       (trace w ++
        [compile_event mujoco_path function_string userdata_names w;
         EvRelink mujoco_path library_path])).
Proof.
  intros Hv Hc Hr.
  rewrite (build_callback_fn_compile_returns _ _ _ _ _ _ _ _ Hv Hc).
  change (String.eqb "darwin" "darwin") with true. cbv iota.
  unfold mbind, py_bind, extern.
  simpl. rewrite Hr. simpl. unfold compile_event.
  by rewrite <- (assoc_L (++)).
Qed.

Lemma X10_darwin_relink_failure_witness :
  (build_callback_fn failing_relinker "/opt/mujoco200" "darwin"
     "void fun(const mjModel* m, mjData* d) {}" (PyList []) clean_world).1
  = Raise (mk_exn CalledProcessError "install_name_tool").
Proof.
  exact (f_equal fst
           (X10_darwin_relink_failure failing_relinker "/opt/mujoco200"
              "void fun(const mjModel* m, mjData* d) {}" (PyList [])
              clean_world "./_fn_aaaaaaaaaaaaaaa.so" _ _
              (mk_exn CalledProcessError "install_name_tool")
              eq_refl eq_refl eq_refl)).
Defined.



(** ** Further properties of the synthesized source *)

Lemma string_length_app (a b : string) :
  String.length (a +:+ b) = String.length a + String.length b.
Proof.
  induction a as [|x a IH]; [done|]. rewrite string_app_cons. simpl.
  by rewrite IH.
Qed.

Lemma string_app_inv_r (c : string) : ∀ a b, a +:+ c = b +:+ c → a = b.
Proof.
  induction a as [|x a IH]; intros [|y b] H.
  - done.
  - change (c = String y (b +:+ c)) in H.
    apply (f_equal String.length) in H. simpl in H.
    rewrite string_length_app in H. lia.
  - change (String x (a +:+ c) = c) in H.
    apply (f_equal String.length) in H. simpl in H.
    rewrite string_length_app in H. lia.
  - rewrite !string_app_cons in H. injection H as -> H. f_equal. by apply IH.
Qed.

(** X12: the directive of a name carries the position of the name.  The
    lines made for one name at two positions of the list are equal only if
    the positions are: a name that is listed twice gets two different
    definitions, never the same line twice. *)
Theorem X12_directive_carries_position (data_name : string) (i j : nat) :
  define_line data_name i = define_line data_name j ↔ i = j.
Proof.
  split; [|by intros ->]. unfold define_line. intros H.
  do 3 apply (inj (String.app _)) in H.
  apply string_app_inv_r in H. by apply (inj pretty) in H.
Qed.

(** ** Further properties of the scope *)

Lemma with_ignore_mujoco_warnings_eq {A} (body : py cymj_state A)
    (s : cymj_state) :
  with_ignore_mujoco_warnings body s
  = ((body (mk_cymj user_warning_ignore_exception)).1, s).
Proof.
  unfold with_ignore_mujoco_warnings, scope_enter.
  unfold get_warning_callback, set_warning_callback. py_unfold. simpl.
  destruct (body _) as [r s2]. by destruct s.
Qed.

(** X13: scopes nest.  When a scope is opened inside the body of another
    one, the inner scope puts back the no-op callback that it found, so the
    rest of the outer body still runs with warnings ignored, and the outer
    scope puts back the callback from before: the statement ends in the
    state in which it started, with the exception of the inner body if it
    raised one. *)
Theorem X13_scopes_nest {A} (inner : py cymj_state A) (ws : list string)
    (s : cymj_state) :
  with_ignore_mujoco_warnings
    (with_ignore_mujoco_warnings inner;; for_each ws emit_warning) s
  = (match (inner (mk_cymj user_warning_ignore_exception)).1 with
     | Return _ => Return ()
     | Raise e => Raise e
     end, s).
Proof.
  rewrite with_ignore_mujoco_warnings_eq. f_equal.
  unfold mbind, py_bind. rewrite with_ignore_mujoco_warnings_eq.
  destruct (inner _) as [[a|e] s2]; simpl; [|done].
  by rewrite warnings_ignored.
Qed.

(** X14: an instance of [ignore_mujoco_warnings] can be used again after it
    was left, but not inside itself.  Entered and left twice in a row, it
    puts back the first callback both times.  Entered a second time before
    it was left, its attribute is overwritten with the no-op callback, and
    both exits install the no-op callback: the callback from before the
    first entry is lost. *)
Theorem X14_instance_reuse (self : ignore_mujoco_warnings) (s : cymj_state) :
  (self1 ← scope_enter self; scope_exit self1;;
   self2 ← scope_enter self1; scope_exit self2) s
  = (Return (), s) ∧
  (self1 ← scope_enter self; self2 ← scope_enter self1;
   scope_exit self2;; scope_exit self2) s
  = (Return (), mk_cymj user_warning_ignore_exception).
Proof. destruct s. split; reflexivity. Qed.

(** ** The registry of native functions *)

Lemma drop_first_underscore (k : string) : drop_first ("_" +:+ k) = k.
Proof. reflexivity. Qed.

Lemma prefix_mj_shape (func_name : string) :
  String.prefix "_mj" func_name = true →
  func_name = "_" +:+ drop_first func_name ∧
  String.prefix "mj" (drop_first func_name) = true.
Proof.
  intros [t ->]%prefix_spec. split; [done|].
  apply prefix_spec. by exists t.
Qed.

Lemma expose_functions_lookup {V} (cymj : gmap string V) names :
  ∀ functions : gmap string V,
  (∀ n, n ∈ names → is_Some (cymj !! n)) →
  ∃ fs, expose_functions names cymj functions = Return fs ∧
        ∀ k, fs !! k
             = if decide (String.prefix "mj" k = true ∧ "_" +:+ k ∈ names)
               then cymj !! ("_" +:+ k)
               else functions !! k.
Proof.
  induction names as [|n names IH]; intros functions Hall.
  - exists functions. split; [done|]. intros k.
    destruct (decide _) as [[_ Hin]|]; [by apply elem_of_nil in Hin|done].
  - simpl expose_functions.
    destruct (String.prefix "_mj" n) eqn:Hn.
    + destruct (Hall n) as [f Hf]; [left|]. unfold getattr. rewrite Hf.
      destruct (IH (<[drop_first n := f]> functions)) as [fs [E Hfs]].
      { intros m Hm. apply Hall. by right. }
      exists fs. split; [done|]. intros k. rewrite Hfs.
      destruct (prefix_mj_shape n Hn) as [Hshape Hmj].
      destruct (decide (String.prefix "mj" k = true ∧ "_" +:+ k ∈ names))
        as [[Hk Hin]|Hnot].
      * rewrite decide_True; [done|]. split; [done|by right].
      * destruct (decide (drop_first n = k)) as [<-|Hne].
        -- rewrite lookup_insert_eq, decide_True, <- Hshape; [done|].
           split; [done|]. rewrite <- Hshape. left.
        -- rewrite lookup_insert_ne by done.
           rewrite decide_False; [done|]. intros [Hk Hin].
           apply elem_of_cons in Hin as [Heq|Hin]; [|by apply Hnot].
           apply Hne. by rewrite <- Heq.
    + destruct (IH functions) as [fs [E Hfs]].
      { intros m Hm. apply Hall. by right. }
      exists fs. split; [done|]. intros k. rewrite Hfs.
      destruct (decide (String.prefix "mj" k = true ∧ "_" +:+ k ∈ names))
        as [[Hk Hin]|Hnot].
      * rewrite decide_True; [done|]. split; [done|by right].
      * rewrite decide_False; [done|]. intros [Hk Hin].
        apply elem_of_cons in Hin as [Heq|Hin]; [|by apply Hnot].
        rewrite <- Heq in Hn. apply prefix_spec in Hk as [t ->].
        assert (String.prefix "_mj" ("_" +:+ "mj" +:+ t) = true)
          by (apply prefix_spec; by exists t).
        congruence.
Qed.

(** X15: what the loop over [dir(cymj)] publishes.  When the names are the
    names of the attributes of [cymj], the loop raises nothing, and the new
    object has exactly the attributes [mj...] for which [cymj] has an
    attribute [_mj...], each with the value of that attribute of [cymj];
    the order of the names and repeated names make no difference, and no
    two attributes of [cymj] end up under one name. *)
Theorem X15_registry_lookup {V} (cymj : gmap string V) (names : list string) :
  (∀ n, n ∈ names ↔ is_Some (cymj !! n)) →
  ∃ functions,
    expose_functions names cymj ∅ = Return functions ∧
    ∀ k, functions !! k
         = if String.prefix "mj" k then cymj !! ("_" +:+ k) else None.
Proof.
  intros Hnames.
  destruct (expose_functions_lookup cymj names ∅) as [fs [E Hfs]].
  { intros n Hn. by apply Hnames. }
  exists fs. split; [done|]. intros k. rewrite Hfs.
  destruct (String.prefix "mj" k) eqn:Hk.
  - destruct (decide _) as [_|Hnot]; [done|].
    rewrite lookup_empty. destruct (cymj !! ("_" +:+ k)) eqn:Hlk; [|done].
    destruct Hnot. split; [done|]. apply Hnames. by eexists.
  - rewrite decide_False; [apply lookup_empty|]. by intros [? _].
Qed.

Lemma X15_registry_lookup_witness :
  ∃ functions,
    expose_functions
      ["__name__"; "_mj_forward"; "_mj_step"; "set_warning_callback"]
      sample_cymj ∅ = Return functions ∧
    ∀ k, functions !! k
         = if String.prefix "mj" k then sample_cymj !! ("_" +:+ k) else None.
Proof.
  apply (X15_registry_lookup sample_cymj).
  intros n. rewrite !elem_of_cons, elem_of_nil. split.
  - intros [->|[->|[->|[->|[]]]]]; by eexists.
  - unfold sample_cymj. intros [v Hv].
    repeat (apply lookup_insert_Some in Hv as [[<- _]|[_ Hv]]; [tauto|]).
    by rewrite lookup_empty in Hv.
Defined.

(** ** Further properties of the attempts *)

Lemma runs_app t1 t2 : runs (t1 ++ t2)%list = runs t1 + runs t2.
Proof. unfold runs. by rewrite List.filter_app, length_app. Qed.

Lemma cleanups_app t1 t2 :
  cleanups (t1 ++ t2)%list = cleanups t1 + cleanups t2.
Proof. unfold cleanups. by rewrite List.filter_app, length_app. Qed.

(** A pass adds its events to the trace; what it does is the same on every
    trace. *)
Lemma attempt_body_trace module_dir env attempt t :
  attempt_body module_dir env (path_join module_dir "compile_mujoco.py")
    attempt t
  = ((attempt_outcome module_dir env attempt).1,
     (t ++ (attempt_outcome module_dir env attempt).2)%list).
Proof.
  unfold attempt_outcome, attempt_body, check_call, glob_so, load_cymj.
  py_unfold.
  destruct (check_call_result (build_step (env attempt))) as [[]|e]; simpl;
    [|done].
  destruct (so_files (env attempt)) as [|so [|so' rest]]; simpl;
    try destruct (load_step (env attempt) "cymj" so); simpl;
    by rewrite <- ?(assoc_L (++)).
Qed.

(** A pass runs the build step once and never removes the build itself. *)
Lemma attempt_outcome_counts module_dir env attempt :
  runs (attempt_outcome module_dir env attempt).2 = 1 ∧
  cleanups (attempt_outcome module_dir env attempt).2 = 0.
Proof.
  unfold attempt_outcome, attempt_body, check_call, glob_so, load_cymj.
  py_unfold.
  destruct (check_call_result (build_step (env attempt))) as [[]|e]; simpl;
    [|done].
  destruct (so_files (env attempt)) as [|so [|so' rest]]; simpl;
    try destruct (load_step (env attempt) "cymj" so); done.
Qed.

Lemma attempts_loop_step module_dir env attempt rest t :
  attempts_loop module_dir env (path_join module_dir "compile_mujoco.py")
    (attempt :: rest) t
  = match (attempt_outcome module_dir env attempt).1 with
    | Return cymj =>
        (Return cymj, (t ++ (attempt_outcome module_dir env attempt).2)%list)
    | Raise e =>
        if isinstance e retried
        then attempts_loop module_dir env
               (path_join module_dir "compile_mujoco.py") rest
               (t ++ (attempt_outcome module_dir env attempt).2
                  ++ [EvRemoveBuild])%list
        else (Raise e, (t ++ (attempt_outcome module_dir env attempt).2)%list)
    end.
Proof.
  set (path := path_join module_dir "compile_mujoco.py").
  change (attempts_loop module_dir env path (attempt :: rest) t) with
    ((r ← try_except (Some <$> attempt_body module_dir env path attempt)
            retried (λ _, remove_mujoco_build;; mret None);
      match r with
      | Some cymj => mret cymj
      | None => attempts_loop module_dir env path rest
      end) t).
  unfold mbind at 1, py_bind at 1, try_except, fmap, py_fmap.
  unfold path. rewrite attempt_body_trace.
  destruct (attempt_outcome module_dir env attempt) as [[cymj|e] evs]; simpl;
    [done|].
  destruct (isinstance e retried); [|done].
  unfold remove_mujoco_build, build_log, mbind, py_bind, mret, py_ret.
  by rewrite <- (assoc_L (++)).
Qed.

Lemma attempts_loop_bounds module_dir env attempts : ∀ t,
  ∃ k c,
    runs (attempts_loop module_dir env
            (path_join module_dir "compile_mujoco.py") attempts t).2
      = runs t + k ∧
    cleanups (attempts_loop module_dir env
                (path_join module_dir "compile_mujoco.py") attempts t).2
      = cleanups t + c ∧
    (c ≤ k)%nat ∧ (k ≤ length attempts)%nat ∧ (attempts ≠ [] → (1 ≤ k)%nat).
Proof.
  induction attempts as [|attempt rest IH]; intros t.
  - exists 0, 0. simpl. rewrite !Nat.add_0_r. by repeat split.
  - rewrite attempts_loop_step.
    destruct (attempt_outcome_counts module_dir env attempt) as [Hr Hc].
    destruct (attempt_outcome module_dir env attempt) as [[cymj|e] evs];
      simpl in *.
    + exists 1, 0. rewrite runs_app, cleanups_app, Hr, Hc. simpl length.
      repeat split; try lia; intros _; lia.
    + destruct (isinstance e retried).
      * destruct (IH (t ++ evs ++ [EvRemoveBuild])%list)
          as [k [c [Hk [Hcl [Hck [Hkl _]]]]]].
        exists (S k), (S c). rewrite Hk, Hcl.
        rewrite !runs_app, !cleanups_app, Hr, Hc.
        change (runs [EvRemoveBuild]) with 0.
        change (cleanups [EvRemoveBuild]) with 1. simpl length.
        repeat split; try lia; intros _; lia.
      * exists 1, 0. simpl snd.
        rewrite runs_app, cleanups_app, Hr, Hc. simpl length.
        repeat split; try lia; intros _; lia.
Qed.

(** X16: the number of attempts is bounded, whatever the outside does.
    Every call of [compile_with_multiple_attempts] runs the build step at
    least once and at most three times, and removes the build at most once
    per run. *)
Theorem X16_attempts_are_bounded (module_dir : string)
    (env : nat → attempt_env) (t : list build_event) :
  ∃ k c,
    runs (compile_with_multiple_attempts module_dir env t).2 = runs t + k ∧
    cleanups (compile_with_multiple_attempts module_dir env t).2
      = cleanups t + c ∧
    (1 ≤ k ≤ 3)%nat ∧ (c ≤ k)%nat.
Proof.
  destruct (attempts_loop_bounds module_dir env (seq 0 3) t)
    as [k [c [Hk [Hc [Hck [Hk3 Hk1]]]]]].
  exists k, c. unfold compile_with_multiple_attempts.
  split; [done|]. split; [done|]. simpl in Hk3.
  split; [|done]. split; [by apply Hk1|done].
Qed.

(** Whether an outcome ends the loop: a value does, and so does an
    exception of a class that the loop does not catch. *)
Lemma attempts_loop_first_end module_dir env k : ∀ a n t,
  k < n →
  (∀ i, i < k →
     ∃ e, (attempt_outcome module_dir env (a + i)).1 = Raise e ∧
          isinstance e retried = true) →
  match (attempt_outcome module_dir env (a + k)).1 with
  | Return _ => True
  | Raise e => isinstance e retried = false
  end →
  (attempts_loop module_dir env (path_join module_dir "compile_mujoco.py")
     (seq a n) t).1
    = (attempt_outcome module_dir env (a + k)).1 ∧
  runs (attempts_loop module_dir env
          (path_join module_dir "compile_mujoco.py") (seq a n) t).2
    = runs t + S k ∧
  cleanups (attempts_loop module_dir env
              (path_join module_dir "compile_mujoco.py") (seq a n) t).2
    = cleanups t + k.
Proof.
  induction k as [|k IH]; intros a n t Hkn Hfail Hend.
  - destruct n as [|n]; [lia|]. simpl seq. rewrite attempts_loop_step.
    rewrite Nat.add_0_r in *.
    destruct (attempt_outcome_counts module_dir env a) as [Hr Hc].
    destruct (attempt_outcome module_dir env a) as [[cymj|e] evs]; simpl in *.
    + rewrite runs_app, cleanups_app, Hr, Hc. repeat split; lia.
    + rewrite Hend. simpl.
      rewrite runs_app, cleanups_app, Hr, Hc. repeat split; lia.
  - destruct n as [|n]; [lia|]. simpl seq. rewrite attempts_loop_step.
    destruct (Hfail 0) as [e [He Hcaught]]; [lia|].
    rewrite Nat.add_0_r in He.
    destruct (attempt_outcome_counts module_dir env a) as [Hr Hc].
    destruct (attempt_outcome module_dir env a) as [r evs]; simpl in *.
    subst r. rewrite Hcaught.
    destruct (IH (S a) n (t ++ evs ++ [EvRemoveBuild])%list)
      as [H1 [H2 H3]].
    + lia.
    + intros i Hi. destruct (Hfail (S i)) as [e' He']; [lia|].
      exists e'. by replace (S a + i) with (a + S i) by lia.
    + by replace (S a + k) with (a + S k) by lia.
    + rewrite H1, H2, H3, !runs_app, !cleanups_app, Hr, Hc.
      change (runs [EvRemoveBuild]) with 0.
      change (cleanups [EvRemoveBuild]) with 1.
      replace (S a + k) with (a + S k) by lia. repeat split; lia.
Qed.

(** X17: the loop ends with the first pass that does not fail in a way it
    catches.  If the first [k] passes ([k] below three) raise exceptions of
    the caught classes, at the build step or at the loader, and pass [k]
    returns a module or raises an exception of another class, then
    [compile_with_multiple_attempts] ends with the outcome of pass [k],
    after [k + 1] runs of the build step and [k] removals of the build. *)
Theorem X17_loop_ends_at_first_final_pass (module_dir : string)
    (env : nat → attempt_env) (t : list build_event) (k : nat) :
  k < 3 →
  (∀ i, i < k →
     ∃ e, (attempt_outcome module_dir env i).1 = Raise e ∧
          isinstance e retried = true) →
  match (attempt_outcome module_dir env k).1 with
  | Return _ => True
  | Raise e => isinstance e retried = false
  end →
  (compile_with_multiple_attempts module_dir env t).1
    = (attempt_outcome module_dir env k).1 ∧
  runs (compile_with_multiple_attempts module_dir env t).2 = runs t + S k ∧
  cleanups (compile_with_multiple_attempts module_dir env t).2
    = cleanups t + k.
Proof.
  intros Hk Hfail Hend.
  exact (attempts_loop_first_end module_dir env k 0 3 t Hk Hfail Hend).
Qed.

Lemma X17_loop_ends_at_first_final_pass_witness :
  (compile_with_multiple_attempts "/site-packages/mujoco_py"
     loads_third_time []).1
    = Return (mk_ext_module "cymj"
                "/site-packages/mujoco_py/generated/cymj.so") ∧
  runs (compile_with_multiple_attempts "/site-packages/mujoco_py"
          loads_third_time []).2 = 3 ∧
  cleanups (compile_with_multiple_attempts "/site-packages/mujoco_py"
              loads_third_time []).2 = 2.
Proof.
  apply (X17_loop_ends_at_first_final_pass "/site-packages/mujoco_py"
           loads_third_time [] 2); [lia | | exact I].
  intros i Hi. exists (mk_exn ImportError "undefined symbol").
  destruct i as [|[|i]]; [by split | by split | lia].
Defined.

Lemma attempts_loop_all_fail module_dir env n : ∀ a t,
  (∀ i, i < n →
     ∃ e, (attempt_outcome module_dir env (a + i)).1 = Raise e ∧
          isinstance e retried = true) →
  (attempts_loop module_dir env (path_join module_dir "compile_mujoco.py")
     (seq a n) t).1
    = Raise (mk_exn Exception "Failed to compile mujoco_py.") ∧
  runs (attempts_loop module_dir env
          (path_join module_dir "compile_mujoco.py") (seq a n) t).2
    = runs t + n ∧
  cleanups (attempts_loop module_dir env
              (path_join module_dir "compile_mujoco.py") (seq a n) t).2
    = cleanups t + n.
Proof.
  induction n as [|n IH]; intros a t Hfail.
  - simpl. by rewrite !Nat.add_0_r.
  - simpl seq. rewrite attempts_loop_step.
    destruct (Hfail 0) as [e [He Hcaught]]; [lia|].
    rewrite Nat.add_0_r in He.
    destruct (attempt_outcome_counts module_dir env a) as [Hr Hc].
    destruct (attempt_outcome module_dir env a) as [r evs]; simpl in *.
    subst r. rewrite Hcaught.
    destruct (IH (S a) (t ++ evs ++ [EvRemoveBuild])%list) as [H1 [H2 H3]].
    { intros i Hi. destruct (Hfail (S i)) as [e' He']; [lia|].
      exists e'. by replace (S a + i) with (a + S i) by lia. }
    rewrite H1, H2, H3, !runs_app, !cleanups_app, Hr, Hc.
    change (runs [EvRemoveBuild]) with 0.
    change (cleanups [EvRemoveBuild]) with 1.
    repeat split; lia.
Qed.

(** X18: three caught failures exhaust the loop.  If each of the three
    passes raises an exception of a caught class, at the build step or at
    the loader, [compile_with_multiple_attempts] raises
    [Exception("Failed to compile mujoco_py.")] after three runs of the build
    step and three removals of the build, one after each run. *)
Theorem X18_three_caught_failures_exhaust (module_dir : string)
    (env : nat → attempt_env) (t : list build_event) :
  (∀ i, i < 3 →
     ∃ e, (attempt_outcome module_dir env i).1 = Raise e ∧
          isinstance e retried = true) →
  (compile_with_multiple_attempts module_dir env t).1
    = Raise (mk_exn Exception "Failed to compile mujoco_py.") ∧
  runs (compile_with_multiple_attempts module_dir env t).2 = runs t + 3 ∧
  cleanups (compile_with_multiple_attempts module_dir env t).2
    = cleanups t + 3.
Proof.
  intros Hfail.
  exact (attempts_loop_all_fail module_dir env 3 0 t Hfail).
Qed.

Lemma X18_three_caught_failures_exhaust_witness :
  (compile_with_multiple_attempts "/site-packages/mujoco_py"
     always_timeout_error []).1
    = Raise (mk_exn Exception "Failed to compile mujoco_py.") ∧
  runs (compile_with_multiple_attempts "/site-packages/mujoco_py"
          always_timeout_error []).2 = 3 ∧
  cleanups (compile_with_multiple_attempts "/site-packages/mujoco_py"
              always_timeout_error []).2 = 3.
Proof.
  apply (X18_three_caught_failures_exhaust "/site-packages/mujoco_py"
           always_timeout_error []).
  intros i _. by exists (mk_exn TimeoutError "timed out").
Defined.

(** X19: a build that leaves no library, or more than one, is not tried
    again.  When the build step of the first pass succeeds and the number of
    libraries that [glob] finds is not one, the assertion fails, and the
    [AssertionError] leaves [compile_with_multiple_attempts] at once: the
    loader is not called, the build is not removed, and there is no second
    run. *)
Theorem X19_library_count_is_asserted (module_dir : string)
    (env : nat → attempt_env) (t : list build_event) :
  build_step (env 0) = ExitZero →
  length (so_files (env 0)) ≠ 1 →
  compile_with_multiple_attempts module_dir env t
  = (Raise (mk_exn AssertionError
              ("Expecting only one .so file under "
               +:+ path_join (path_join module_dir "generated") "*.so")),
     (t ++ [EvCheckCall
              ["python"; path_join module_dir "compile_mujoco.py"] 150;
            EvGlobSo (path_join (path_join module_dir "generated") "*.so")])
       %list).
Proof.
  intros Hstep Hcount. unfold compile_with_multiple_attempts. simpl seq.
  rewrite attempts_loop_step.
  unfold attempt_outcome, attempt_body, check_call, glob_so. py_unfold.
  rewrite Hstep. simpl.
  destruct (so_files (env 0)) as [|so [|so' rest]]; simpl in *;
    [done | lia | done].
Qed.

Lemma X19_library_count_is_asserted_witness :
  compile_with_multiple_attempts "/site-packages/mujoco_py" two_libraries []
  = (Raise (mk_exn AssertionError
              ("Expecting only one .so file under "
               +:+ "/site-packages/mujoco_py/generated/*.so")),
     [EvCheckCall ["python"; "/site-packages/mujoco_py/compile_mujoco.py"] 150;
      EvGlobSo "/site-packages/mujoco_py/generated/*.so"]).
Proof.
  apply (X19_library_count_is_asserted "/site-packages/mujoco_py"
           two_libraries []); [reflexivity | simpl; lia].
Defined.

(** ** What a build leaves alone *)








